(** * Task manager: the Supabase data access layer and the Streamlit
    dispatch block, embedded in Rocq.

    Sources: [database.py] (class [SupabaseClient]) and
    [streamlit_app.py] (the [?api=...] dispatch block).

    Python values are an inductive type, exceptions are values, and the
    code that threads the page and the network is written in a small
    state-and-exception monad. *)

From Stdlib Require Import ZArith String Ascii List Bool Lia Floats.
From Stdlib Require Import Orders Sorting Permutation Mergesort.
From stdpp Require Import gmap strings list pretty.
Import ListNotations.

Open Scope string_scope.
Open Scope Z_scope.

(** ** Python values and exceptions *)

(** What [response.json()] can produce, and what the code builds from it:
    [None], [bool], [int], [float], [str], [list] and [dict] with string
    keys (kept in insertion order, keys unique).  A [str] is its UTF-8
    bytes. *)
#[warnings="-register-all"]
Inductive pyval : Type :=
| VNone
| VBool (b : bool)
| VInt (z : Z)
| VFloat (f : float)
| VStr (s : string)
| VList (l : list pyval)
| VDict (kv : list (string * pyval)).

(** The exception classes the code can meet.  All of them derive from
    [Exception]; [HTTPError] derives from [RequestException]. *)
Inductive exn_class : Type :=
| RequestException | HTTPError | JSONDecodeError
| ValueError | TypeError | KeyError | IndexError | AttributeError.

(** An exception: its class and [str(e)]. *)
Record exn : Type := Exn { exn_cls : exn_class; exn_str : string }.

(** [isinstance(e, requests.exceptions.RequestException)]. *)
Definition is_RequestException (e : exn) : bool :=
  match exn_cls e with
  | RequestException | HTTPError => true
  | _ => false
  end.

(** [isinstance(e, Exception)]: every class above. *)
Definition is_Exception (e : exn) : bool := true.

Module Py.

(** [bool(v)]. *)
Definition truthy (v : pyval) : bool :=
  match v with
  | VNone => false
  | VBool b => b
  | VInt z => negb (z =? 0)
  | VFloat f => negb (PrimFloat.eqb f 0%float)
  | VStr s => match s with EmptyString => false | _ => true end
  | VList l => match l with [] => false | _ => true end
  | VDict kv => match kv with [] => false | _ => true end
  end.

(** The name [type(v).__name__] used in error messages. *)
Definition type_name (v : pyval) : string :=
  match v with
  | VNone => "NoneType" | VBool _ => "bool" | VInt _ => "int"
  | VFloat _ => "float" | VStr _ => "str" | VList _ => "list"
  | VDict _ => "dict"
  end.

(** The characters of a string, each as a one-character [str]. *)
Fixpoint chars (s : string) : list pyval :=
  match s with
  | EmptyString => []
  | String c s' => VStr (String c EmptyString) :: chars s'
  end.

(** [len(v)]. *)
Definition len (v : pyval) : exn + Z :=
  match v with
  | VList l => inr (Z.of_nat (length l))
  | VDict kv => inr (Z.of_nat (length kv))
  | VStr s => inr (Z.of_nat (String.length s))
  | _ => inl (Exn TypeError
                ("object of type '" +:+ type_name v +:+ "' has no len()"))
  end.

(** [iter(v)], as the list of the items a [for] visits. *)
Definition iter (v : pyval) : exn + list pyval :=
  match v with
  | VList l => inr l
  | VDict kv => inr (map (fun p => VStr (fst p)) kv)
  | VStr s => inr (chars s)
  | _ => inl (Exn TypeError
                ("'" +:+ type_name v +:+ "' object is not iterable"))
  end.

(** [d.get(k)] on the pairs of a dict. *)
Fixpoint lookup (k : string) (kv : list (string * pyval)) : option pyval :=
  match kv with
  | [] => None
  | (k', v) :: kv' => if String.eqb k k' then Some v else lookup k kv'
  end.

(** [v.get(k, default)]: only a dict has the method. *)
Definition get (v : pyval) (k : string) (default : pyval) : exn + pyval :=
  match v with
  | VDict kv => inr (match lookup k kv with Some x => x | None => default end)
  | _ => inl (Exn AttributeError
                ("'" +:+ type_name v +:+ "' object has no attribute 'get'"))
  end.

(** [v[0]]. *)
Definition item0 (v : pyval) : exn + pyval :=
  match v with
  | VList (x :: _) => inr x
  | VList [] => inl (Exn IndexError "list index out of range")
  | VStr (String c _) => inr (VStr (String c EmptyString))
  | VStr EmptyString => inl (Exn IndexError "string index out of range")
  | VDict _ => inl (Exn KeyError "0")
  | _ => inl (Exn TypeError
                ("'" +:+ type_name v +:+ "' object is not subscriptable"))
  end.

(** [isinstance(v, list)]. *)
Definition is_list (v : pyval) : bool :=
  match v with VList _ => true | _ => false end.

(** [int] to [float], exact below [2^53]. *)
Definition float_of_int (z : Z) : float :=
  PrimFloat.of_uint63 (Uint63.of_Z z).

(** [a / b] on two [int]s: true division in binary64 ([b] is not zero
    where the code divides). *)
Definition truediv (a b : Z) : float :=
  PrimFloat.div (float_of_int a) (float_of_int b).

(** [x * n] with a [float] and an [int]. *)
Definition mul_int (x : float) (n : Z) : float :=
  PrimFloat.mul x (float_of_int n).

(** [c.lower()] on one ASCII byte; the bytes of other characters are
    kept.  Python lowers letters outside ASCII too, but none of them to
    one of the letters of "true", so the comparison with ['true'] in the
    dispatch block comes out the same. *)
Definition lower_ascii (c : ascii) : ascii :=
  let n := N_of_ascii c in
  if ((65 <=? n) && (n <=? 90))%N then ascii_of_N (n + 32) else c.

(** [s.lower()]. *)
Fixpoint lower (s : string) : string :=
  match s with
  | EmptyString => EmptyString
  | String c s' => String (lower_ascii c) (lower s')
  end.

(** [str(n)] for an [int]. *)
Definition str_int (n : Z) : string := pretty n.

End Py.

(** ** The outside world: HTTP, the clock, the page *)

Inductive verb : Type := GET | POST | PATCH | DELETE.

(** One call of [requests.get/post/patch/delete]. *)
Record http_request : Type := HttpRequest {
  rq_verb : verb;
  rq_url : string;
  rq_headers : list (string * string);
  rq_json : option pyval
}.

(** A [requests.Response]: [body] is what [response.json()] decodes, or
    [None] when the body is not JSON. *)
Record response : Type := Response {
  status_code : Z;
  reason : string;
  resp_url : string;
  body : option pyval
}.

(** The call either raises a [RequestException] (no connection, timeout,
    ...) or returns a response, whatever its status. *)
Inductive http_outcome : Type :=
| ConnFailed (msg : string)
| Resp (r : response).

(** What the program runs against: the remote service with its state, the
    clock, and the builtin [int(s)] on a [str]. *)
Record platform : Type := Platform {
  World : Type;
  send : http_request -> World -> World * http_outcome;
  now_iso : World -> string;
  int_of_str : string -> exn + Z
}.

(** What Streamlit is asked to put on the page. *)
Inductive element : Type :=
| Markdown (text : string) (unsafe_allow_html : bool)
| Error (msg : string)
| Json (v : pyval).

(** The state of a run: the world, the page so far, and the HTTP calls
    made so far, oldest first. *)
Record state (P : platform) : Type := State {
  world : World P;
  page : list element;
  sent : list http_request
}.
Arguments State {P} _ _ _.
Arguments world {P} _.
Arguments page {P} _.
Arguments sent {P} _.

(** ** The monad of the script *)

(** A computation returns, raises an exception, or stops the script
    ([st.stop()], a [BaseException] that [except Exception] lets through). *)
Inductive outcome (A : Type) : Type :=
| Ret (a : A)
| Raise (e : exn)
| Halt.
Arguments Ret {A} _.
Arguments Raise {A} _.
Arguments Halt {A}.

Definition M (P : platform) (A : Type) : Type := state P -> state P * outcome A.

Section Monad.
Context {P : platform}.

Definition ret {A} (a : A) : M P A := fun s => (s, Ret a).

Definition bind {A B} (m : M P A) (k : A -> M P B) : M P B :=
  fun s =>
    match m s with
    | (s', Ret a) => k a s'
    | (s', Raise e) => (s', Raise e)
    | (s', Halt) => (s', Halt)
    end.

Definition raise {A} (e : exn) : M P A := fun s => (s, Raise e).

(** A pure step that may raise. *)
Definition lift {A} (r : exn + A) : M P A :=
  match r with inl e => raise e | inr a => ret a end.

(** [try: body except C as e: handler e], [catches] deciding
    [isinstance(e, C)]. *)
Definition try_except {A} (body : M P A) (catches : exn -> bool)
    (handler : exn -> M P A) : M P A :=
  fun s =>
    match body s with
    | (s', Raise e) => if catches e then handler e s' else (s', Raise e)
    | r => r
    end.

Definition emit (el : element) : M P unit :=
  fun s => (State (world s) (page s ++ [el]) (sent s), Ret tt).

Definition st_markdown (text : string) (unsafe : bool) : M P unit :=
  emit (Markdown text unsafe).
Definition st_error (msg : string) : M P unit := emit (Error msg).
Definition st_json (v : pyval) : M P unit := emit (Json v).
Definition st_stop {A} : M P A := fun s => (s, Halt).

(** [requests.<verb>(url, headers=..., json=...)]. *)
Definition requests_call (v : verb) (url : string)
    (headers : list (string * string)) (json : option pyval) : M P response :=
  fun s =>
    let rq := HttpRequest v url headers json in
    match send P rq (world s) with
    | (w', ConnFailed msg) =>
        (State w' (page s) (sent s ++ [rq]), Raise (Exn RequestException msg))
    | (w', Resp r) => (State w' (page s) (sent s ++ [rq]), Ret r)
    end.

(** [pd.Timestamp.now().isoformat()]. *)
Definition timestamp_now : M P string :=
  fun s => (s, Ret (now_iso P (world s))).

End Monad.

Declare Scope py_scope.
Delimit Scope py_scope with py.
Notation "x <- m ;; k" := (bind m (fun x => k))
  (at level 100, m at next level, right associativity) : py_scope.
Notation "m ;; k" := (bind m (fun _ => k))
  (at level 100, right associativity) : py_scope.
Open Scope py_scope.

(** The [HTTPError] that [raise_for_status] builds for a 4xx or 5xx
    response. *)
Definition http_error_of (r : response) : option exn :=
  if (400 <=? status_code r) && (status_code r <? 500) then
    Some (Exn HTTPError (Py.str_int (status_code r) +:+ " Client Error: "
                         +:+ reason r +:+ " for url: " +:+ resp_url r))
  else if (500 <=? status_code r) && (status_code r <? 600) then
    Some (Exn HTTPError (Py.str_int (status_code r) +:+ " Server Error: "
                         +:+ reason r +:+ " for url: " +:+ resp_url r))
  else None.

(** [response.raise_for_status()]. *)
Definition raise_for_status {P} (r : response) : M P unit :=
  match http_error_of r with
  | Some e => raise e
  | None => ret tt
  end.

(** [response.json()]. *)
Definition json {P} (r : response) : M P pyval :=
  match body r with
  | Some v => ret v
  | None => raise (Exn JSONDecodeError "Expecting value: line 1 column 1 (char 0)")
  end.

(** ** database.py: class SupabaseClient *)

Record SupabaseClient : Type := {
  url : string;
  key : string;
  service_key : string
}.

Definition headers (self : SupabaseClient) : list (string * string) :=
  [("apikey", key self);
   ("Authorization", "Bearer " +:+ key self);
   ("Content-Type", "application/json");
   ("Prefer", "return=representation")].

Definition admin_headers (self : SupabaseClient) : list (string * string) :=
  [("apikey", service_key self);
   ("Authorization", "Bearer " +:+ service_key self);
   ("Content-Type", "application/json");
   ("Prefer", "return=representation")].

(** The list comprehension [[x for x in items if test(x)]], where the
    test may raise. *)
Fixpoint comprehension (test : pyval -> exn + bool) (items : list pyval)
  : exn + list pyval :=
  match items with
  | [] => inr []
  | x :: rest =>
      match test x with
      | inl e => inl e
      | inr b =>
          match comprehension test rest with
          | inl e => inl e
          | inr kept => inr (if b then x :: kept else kept)
          end
      end
  end.

Definition zero_stats : pyval :=
  VDict [("total", VInt 0); ("completed", VInt 0); ("pending", VInt 0);
         ("completion_rate", VInt 0)].

Section Database.
Context {P : platform}.
Variable self : SupabaseClient.

Definition _make_request (method endpoint : string) (data : option pyval)
    (use_admin : bool) : M P response :=
  let url := url self +:+ "/rest/v1/" +:+ endpoint in
  let headers := if use_admin then admin_headers self else headers self in
  try_except
    (response <-
       (if String.eqb method "GET" then requests_call GET url headers None
        else if String.eqb method "POST" then requests_call POST url headers data
        else if String.eqb method "PATCH" then requests_call PATCH url headers data
        else if String.eqb method "DELETE" then requests_call DELETE url headers None
        else raise (Exn ValueError ("Unsupported method: " +:+ method))) ;;
     raise_for_status response ;;
     ret response)
    is_RequestException
    (fun e => st_error ("Database request failed: " +:+ exn_str e) ;; raise e).

Definition get_all_tasks : M P pyval :=
  try_except
    (response <- _make_request "GET" "tasks?order=created_at.desc" None false ;;
     json response)
    is_Exception
    (fun e => st_error ("Failed to fetch tasks: " +:+ exn_str e) ;;
              ret (VList [])).

Definition get_task (task_id : Z) : M P pyval :=
  try_except
    (response <- _make_request "GET" ("tasks?id=eq." +:+ Py.str_int task_id)
                   None false ;;
     tasks <- json response ;;
     if Py.truthy tasks then lift (Py.item0 tasks) else ret VNone)
    is_Exception
    (fun e => st_error ("Failed to fetch task " +:+ Py.str_int task_id
                        +:+ ": " +:+ exn_str e) ;;
              ret VNone).

Definition create_task (title description : string) : M P pyval :=
  let data := VDict [("title", VStr title);
                     ("description", VStr description);
                     ("completed", VBool false)] in
  try_except
    (response <- _make_request "POST" "tasks" (Some data) false ;;
     created_task <- json response ;;
     if Py.is_list created_task then lift (Py.item0 created_task)
     else ret created_task)
    is_Exception
    (fun e => st_error ("Failed to create task: " +:+ exn_str e) ;; raise e).

Definition update_task (task_id : Z) (title description : string)
    (completed : bool) : M P pyval :=
  let data := VDict [("title", VStr title);
                     ("description", VStr description);
                     ("completed", VBool completed)] in
  try_except
    (response <- _make_request "PATCH" ("tasks?id=eq." +:+ Py.str_int task_id)
                   (Some data) false ;;
     updated_task <- json response ;;
     if Py.is_list updated_task then lift (Py.item0 updated_task)
     else ret updated_task)
    is_Exception
    (fun e => st_error ("Failed to update task " +:+ Py.str_int task_id
                        +:+ ": " +:+ exn_str e) ;;
              raise e).

Definition delete_task (task_id : Z) : M P bool :=
  try_except
    (_make_request "DELETE" ("tasks?id=eq." +:+ Py.str_int task_id) None false ;;
     ret true)
    is_Exception
    (fun e => st_error ("Failed to delete task " +:+ Py.str_int task_id
                        +:+ ": " +:+ exn_str e) ;;
              ret false).

(** [task.get('completed', False)] as the condition of the
    comprehension. *)
Definition is_completed (task : pyval) : exn + bool :=
  match Py.get task "completed" (VBool false) with
  | inl e => inl e
  | inr c => inr (Py.truthy c)
  end.

Definition get_task_stats : M P pyval :=
  try_except
    (tasks <- get_all_tasks ;;
     total <- lift (Py.len tasks) ;;
     items <- lift (Py.iter tasks) ;;
     kept <- lift (comprehension is_completed items) ;;
     let completed := Z.of_nat (length kept) in
     let pending := total - completed in
     ret (VDict [("total", VInt total);
                 ("completed", VInt completed);
                 ("pending", VInt pending);
                 ("completion_rate",
                  if 0 <? total
                  then VFloat (Py.mul_int (Py.truediv completed total) 100)
                  else VInt 0)]))
    is_Exception
    (fun e => st_error ("Failed to get task statistics: " +:+ exn_str e) ;;
              ret zero_stats).

Definition search_tasks (query : string) : M P pyval :=
  try_except
    (let endpoint := "tasks?or=(title.ilike.*" +:+ query
                     +:+ "*,description.ilike.*" +:+ query
                     +:+ "*)&order=created_at.desc" in
     response <- _make_request "GET" endpoint None false ;;
     json response)
    is_Exception
    (fun e => st_error ("Failed to search tasks: " +:+ exn_str e) ;;
              ret (VList [])).

Definition test_connection : M P bool :=
  try_except
    (_make_request "GET" "tasks?limit=1" None false ;; ret true)
    is_Exception
    (fun e => st_error ("Database connection test failed: " +:+ exn_str e) ;;
              ret false).

End Database.

(** ** streamlit_app.py: the dispatch block *)

(** [st.experimental_get_query_params()]: each name that occurs in the
    query string with the list of its values.  The list of a name that
    occurs is never empty, so it is kept as its first value and the
    rest. *)
Definition first_value (query_params : gmap string (string * list string))
    (name : string) : option string :=
  fst <$> query_params !! name.

(** [bool(x)] for [x] a [str] or [None]. *)
Definition given (x : option string) : bool :=
  match x with
  | None | Some EmptyString => false
  | Some _ => true
  end.

Definition cors_script : string := "
    <script>
    // Set CORS headers
    if (window.parent) {
        window.parent.postMessage({type: 'cors', headers: {
            'Access-Control-Allow-Origin': '*',
            'Access-Control-Allow-Methods': 'GET, POST, PUT, DELETE, OPTIONS',
            'Access-Control-Allow-Headers': 'Content-Type, Authorization'
        }}, '*');
    }
    </script>
    ".

Definition error_envelope (message : string) : pyval :=
  VDict [("status", VStr "error"); ("message", VStr message)].

(** The value of an option that is a [str] or [None], as a Python value. *)
Definition of_option_str (x : option string) : string := default EmptyString x.

Section Dispatch.
Context {P : platform}.
(** The client of [init_supabase()]. *)
Variable db : SupabaseClient.

Definition set_cors_headers : M P unit := st_markdown cors_script true.

(** [except Exception as e: st.json({...error...}); st.stop()], the
    handler every route shares. *)
Definition report (e : exn) : M P unit :=
  st_json (error_envelope (exn_str e)) ;; st_stop.

Definition route_tasks : M P unit :=
  try_except
    (tasks <- get_all_tasks db ;;
     let response := VDict [("status", VStr "success"); ("data", tasks)] in
     st_json response ;;
     st_stop)
    is_Exception report.

Definition route_task (query_params : gmap string (string * list string))
  : M P unit :=
  try_except
    (let task_id := first_value query_params "id" in
     (if given task_id then
        n <- lift (int_of_str P (of_option_str task_id)) ;;
        task <- get_task db n ;;
        let response := VDict [("status", VStr "success"); ("data", task)] in
        st_json response
      else
        st_json (error_envelope "Task ID required")) ;;
     st_stop)
    is_Exception report.

Definition route_create_task (query_params : gmap string (string * list string))
  : M P unit :=
  try_except
    (let title := first_value query_params "title" in
     let description := default EmptyString (first_value query_params "description") in
     (if given title then
        task <- create_task db (of_option_str title) description ;;
        let response := VDict [("status", VStr "success"); ("data", task);
                               ("message", VStr "Task created successfully")] in
        st_json response
      else
        st_json (error_envelope "Title is required")) ;;
     st_stop)
    is_Exception report.

(** [query_params.get('completed', ['false'])[0].lower() == 'true']. *)
Definition completed_param (query_params : gmap string (string * list string))
  : bool :=
  String.eqb (Py.lower (default "false" (first_value query_params "completed")))
             "true".

Definition route_update_task (query_params : gmap string (string * list string))
  : M P unit :=
  try_except
    (let task_id := first_value query_params "id" in
     let title := first_value query_params "title" in
     let description := default EmptyString (first_value query_params "description") in
     let completed := completed_param query_params in
     (if given task_id && given title then
        n <- lift (int_of_str P (of_option_str task_id)) ;;
        task <- update_task db n (of_option_str title) description completed ;;
        let response := VDict [("status", VStr "success"); ("data", task);
                               ("message", VStr "Task updated successfully")] in
        st_json response
      else
        st_json (error_envelope "Task ID and title are required")) ;;
     st_stop)
    is_Exception report.

Definition route_delete_task (query_params : gmap string (string * list string))
  : M P unit :=
  try_except
    (let task_id := first_value query_params "id" in
     (if given task_id then
        n <- lift (int_of_str P (of_option_str task_id)) ;;
        success <- delete_task db n ;;
        let response :=
          if success
          then VDict [("status", VStr "success");
                      ("message", VStr "Task deleted successfully")]
          else VDict [("status", VStr "error");
                      ("message", VStr "Failed to delete task")] in
        st_json response
      else
        st_json (error_envelope "Task ID required")) ;;
     st_stop)
    is_Exception report.

Definition route_health : M P unit :=
  now <- timestamp_now ;;
  st_json (VDict [("status", VStr "success");
                  ("message", VStr "API is running");
                  ("timestamp", VStr now)]) ;;
  st_stop.

(** The body of [if 'api' in query_params:]. *)
Definition api_block (api_endpoint : string)
    (query_params : gmap string (string * list string)) : M P unit :=
  set_cors_headers ;;
  if String.eqb api_endpoint "tasks" then route_tasks
  else if String.eqb api_endpoint "task" then route_task query_params
  else if String.eqb api_endpoint "create_task" then route_create_task query_params
  else if String.eqb api_endpoint "update_task" then route_update_task query_params
  else if String.eqb api_endpoint "delete_task" then route_delete_task query_params
  else if String.eqb api_endpoint "health" then route_health
  else ret tt.

(** The script from [query_params = ...] on, once [init_supabase()] has
    built [db].  [ui] is the [else:] branch, the interactive page. *)
Definition script (ui : M P unit)
    (query_params : gmap string (string * list string)) : M P unit :=
  match query_params !! "api" with
  | Some values => api_block (fst values) query_params
  | None => ui
  end.

End Dispatch.

(** ** Reading what a run left on the page *)

(** The values handed to [st.json], in order. *)
Fixpoint json_responses (page : list element) : list pyval :=
  match page with
  | [] => []
  | Json v :: rest => v :: json_responses rest
  | _ :: rest => json_responses rest
  end.

(** The [status] of an envelope. *)
Definition envelope_status (v : pyval) : option string :=
  match v with
  | VDict kv =>
      match Py.lookup "status" kv with
      | Some (VStr s) => Some s
      | _ => None
      end
  | _ => None
  end.

Definition is_envelope (v : pyval) : bool :=
  match envelope_status v with
  | Some s => String.eqb s "success" || String.eqb s "error"
  | None => false
  end.

(** ** Concrete platforms, to run the model *)

(** [int(s)] on the plain decimal strings: an optional sign and ASCII
    digits.  Everything else raises [ValueError] here (Python also takes
    blanks around the number, [_] between digits and other digits). *)
Module DecimalInt.

Definition digit (c : ascii) : option Z :=
  let n := Z.of_N (N_of_ascii c) in
  if (48 <=? n) && (n <=? 57) then Some (n - 48) else None.

Fixpoint digits (acc : Z) (s : string) : option Z :=
  match s with
  | EmptyString => Some acc
  | String c s' =>
      match digit c with
      | Some d => digits (10 * acc + d) s'
      | None => None
      end
  end.

Definition unsigned (s : string) : option Z :=
  match s with
  | EmptyString => None
  | _ => digits 0 s
  end.

Definition parse (s : string) : exn + Z :=
  let r := match s with
           | String "-" s' => option_map Z.opp (unsigned s')
           | String "+" s' => unsigned s'
           | _ => unsigned s
           end in
  match r with
  | Some z => inr z
  | None => inl (Exn ValueError
                   ("invalid literal for int() with base 10: '" +:+ s +:+ "'"))
  end.

End DecimalInt.

(** A remote that answers every call with the same outcome. *)
Definition canned (o : http_outcome) : platform :=
  {| World := unit;
     send := fun _ w => (w, o);
     now_iso := fun _ => "2024-01-01T00:00:00";
     int_of_str := DecimalInt.parse |}.

Definition offline : platform := canned (ConnFailed "Connection refused").

Definition answering (status : Z) (v : pyval) : platform :=
  canned (Resp (Response status "OK" "https://db.example" (Some v))).

Definition start (P : platform) (w : World P) : state P := State w [] [].

Definition demo_client : SupabaseClient :=
  {| url := "https://db.example"; key := "anon"; service_key := "service" |}.

(** ** Running [_make_request] *)

Definition method_name (v : verb) : string :=
  match v with GET => "GET" | POST => "POST" | PATCH => "PATCH" | DELETE => "DELETE" end.

(** The HTTP call [_make_request] issues for a supported method. *)
Definition request_of (self : SupabaseClient) (v : verb) (endpoint : string)
    (data : option pyval) (use_admin : bool) : http_request :=
  HttpRequest v (url self +:+ "/rest/v1/" +:+ endpoint)
    (if use_admin then admin_headers self else headers self)
    (match v with POST | PATCH => data | GET | DELETE => None end).

(** The exception a call ends in, if any: a transport failure, or an HTTP
    status of the 4xx and 5xx ranges. *)
Definition call_exn (o : http_outcome) : option exn :=
  match o with
  | ConnFailed msg => Some (Exn RequestException msg)
  | Resp r => http_error_of r
  end.

(** The response of a call that did not fail. *)
Definition call_response (o : http_outcome) : option response :=
  match o with
  | ConnFailed _ => None
  | Resp r => match http_error_of r with Some _ => None | None => Some r end
  end.


(** The endpoints and the payload the client builds. *)
Definition list_endpoint : string := "tasks?order=created_at.desc".

Definition id_endpoint (task_id : Z) : string :=
  "tasks?id=eq." +:+ Py.str_int task_id.

Definition search_endpoint (query : string) : string :=
  "tasks?or=(title.ilike.*" +:+ query +:+ "*,description.ilike.*" +:+ query
  +:+ "*)&order=created_at.desc".

Definition task_payload (title description : string) (completed : bool) : pyval :=
  VDict [("title", VStr title); ("description", VStr description);
         ("completed", VBool completed)].

(** The remote call [rq], made in state [s], fails with [e]. *)
Definition fails_with {P} (s : state P) (rq : http_request) (e : exn) : Prop :=
  call_exn (snd (send P rq (world s))) = Some e.

(** The remote call [rq], made in state [s], goes through and its body
    decodes to [v]. *)
Definition answers {P} (s : state P) (rq : http_request) (v : pyval) : Prop :=
  exists r, call_response (snd (send P rq (world s))) = Some r /\ body r = Some v.

(** The dict [get_task_stats] returns. *)
Definition stats_record (total completed pending : Z) (rate : pyval) : pyval :=
  VDict [("total", VInt total); ("completed", VInt completed);
         ("pending", VInt pending); ("completion_rate", rate)].

(** [isinstance(v, dict)]. *)
Definition is_dict (v : pyval) : bool :=
  match v with VDict _ => true | _ => false end.

(** Whether a task counts as completed: its [completed] entry is there
    and is truthy. *)
Definition completed_flag (task : pyval) : bool :=
  match task with
  | VDict kv =>
      match Py.lookup "completed" kv with
      | Some c => Py.truthy c
      | None => false
      end
  | _ => false
  end.

(** Two stored tasks as the remote lists them, newest first. *)
Definition sample_tasks : list pyval :=
  [VDict [("id", VInt 2); ("title", VStr "B"); ("completed", VBool true)];
   VDict [("id", VInt 1); ("title", VStr "A"); ("completed", VBool false)]].

(** A record has a [completed] entry that is a [bool]. *)
Definition has_bool_completed (task : pyval) : bool :=
  match task with
  | VDict kv =>
      match Py.lookup "completed" kv with
      | Some (VBool _) => true
      | _ => false
      end
  | _ => false
  end.

(** The six operation names of the dispatch block. *)
Definition known_operation (api_endpoint : string) : bool :=
  existsb (String.eqb api_endpoint)
    ["tasks"; "task"; "create_task"; "update_task"; "delete_task"; "health"].

(** ** What a computation writes as JSON and how it ends *)

Section Shapes.
Context {P : platform}.

(** [m] hands nothing to [st.json] and does not stop the script. *)
Definition quiet {A} (m : M P A) : Prop :=
  forall s,
    json_responses (page (fst (m s))) = json_responses (page s)
    /\ snd (m s) <> Halt.

(** [m] either writes one envelope and returns, or raises having
    written none. *)
Definition emits (m : M P unit) : Prop :=
  forall s,
    (snd (m s) = Ret tt
     /\ exists v, is_envelope v = true
          /\ json_responses (page (fst (m s))) = (json_responses (page s) ++ [v])%list)
    \/ (json_responses (page (fst (m s))) = json_responses (page s)
        /\ exists e, snd (m s) = Raise e).

(** [m] either writes one envelope and stops the script, or raises
    having written none. *)
Definition replies (m : M P unit) : Prop :=
  forall s,
    (snd (m s) = Halt
     /\ exists v, is_envelope v = true
          /\ json_responses (page (fst (m s))) = (json_responses (page s) ++ [v])%list)
    \/ (json_responses (page (fst (m s))) = json_responses (page s)
        /\ exists e, snd (m s) = Raise e).

(** [m] writes exactly one envelope and stops the script. *)
Definition responds (m : M P unit) : Prop :=
  forall s,
    snd (m s) = Halt
    /\ exists v, is_envelope v = true
         /\ json_responses (page (fst (m s))) = (json_responses (page s) ++ [v])%list.

End Shapes.


(** ** The remote table service

    The service at [<url>/rest/v1/] is not part of the repository.  This
    is a model of it for the requests that [database.py] builds: the table
    [tasks] of [config.py], read and written through the query syntax of
    the endpoints above ([id=eq.<n>], [or=(<column>.ilike.<pattern>,...)],
    [order=created_at.desc], [limit=1]).  Timestamps are ticks of the
    service's clock. *)
Module Remote.

(** A row of [tasks]; [description] and [completed] may be NULL. *)
Record row : Type := Row {
  id : Z;
  title : string;
  description : option string;
  completed : option bool;
  created_at : Z;
  updated_at : Z
}.

Record db : Type := Db {
  rows : list row;
  next_id : Z;
  clock : Z
}.

Definition to_json (r : row) : pyval :=
  VDict [("id", VInt (id r));
         ("title", VStr (title r));
         ("description", match description r with Some d => VStr d | None => VNone end);
         ("completed", match completed r with Some b => VBool b | None => VNone end);
         ("created_at", VStr (Py.str_int (created_at r)));
         ("updated_at", VStr (Py.str_int (updated_at r)))].

(** [s] matches the pattern [p], in which [*] stands for any run of
    characters. *)
Fixpoint like (p s : string) : bool :=
  match p with
  | EmptyString => match s with EmptyString => true | _ => false end
  | String c p' =>
      if Ascii.eqb c "*" then
        (fix any (s : string) : bool :=
           like p' s
           || match s with
              | EmptyString => false
              | String _ s' => any s'
              end) s
      else
        match s with
        | EmptyString => false
        | String d s' => Ascii.eqb c d && like p' s'
        end
  end.

(** The same, letter case ignored. *)
Definition ilike (p s : string) : bool := like (Py.lower p) (Py.lower s).

(** [order=created_at.desc]. *)
Module Newest <: Orders.TotalLeBool.
Definition t : Type := row.
Definition leb (a b : row) : bool := created_at b <=? created_at a.
Theorem leb_total (a b : row) : leb a b = true \/ leb b a = true.
Proof. unfold leb. rewrite !Z.leb_le. lia. Qed.
End Newest.

Module NewestFirst := Mergesort.Sort Newest.

Definition newest_first (l : list row) : list row := NewestFirst.sort l.

(** Cutting strings. *)
Fixpoint strip_prefix (p s : string) : option string :=
  match p with
  | EmptyString => Some s
  | String c p' =>
      match s with
      | EmptyString => None
      | String d s' => if Ascii.eqb c d then strip_prefix p' s' else None
      end
  end.

(** [s] cut at its first [c]. *)
Fixpoint break_at (c : ascii) (s : string) : option (string * string) :=
  match s with
  | EmptyString => None
  | String d s' =>
      if Ascii.eqb c d then Some (EmptyString, s')
      else match break_at c s' with
           | Some (a, b) => Some (String d a, b)
           | None => None
           end
  end.

(** What an endpoint asks for. *)
Inductive query : Type :=
| All
| First
| ById (n : Z)
| Search (title_pattern description_pattern : string).

Definition parse_search (s : string) : option query :=
  match break_at "," s with
  | Some (p1, s1) =>
      match strip_prefix "description.ilike." s1 with
      | Some s2 =>
          match break_at ")" s2 with
          | Some (p2, tail) =>
              if String.eqb tail "&order=created_at.desc"
              then Some (Search p1 p2) else None
          | None => None
          end
      | None => None
      end
  | None => None
  end.

Definition parse_endpoint (endpoint : string) : option query :=
  if String.eqb endpoint "tasks?order=created_at.desc" then Some All
  else if String.eqb endpoint "tasks?limit=1" then Some First
  else
    match strip_prefix "tasks?id=eq." endpoint with
    | Some n =>
        match DecimalInt.parse n with
        | inr z => Some (ById z)
        | inl _ => None
        end
    | None =>
        match strip_prefix "tasks?or=(title.ilike." endpoint with
        | Some s => parse_search s
        | None => None
        end
    end.

(** The rows a query selects, in the order they are answered. *)
Definition hit (title_pattern description_pattern : string) (r : row) : bool :=
  ilike title_pattern (title r)
  || match description r with
     | Some d => ilike description_pattern d
     | None => false
     end.

Definition select (q : query) (table : list row) : list row :=
  match q with
  | All => newest_first table
  | First => firstn 1 table
  | ById n => List.filter (fun r => id r =? n) table
  | Search p1 p2 => newest_first (List.filter (hit p1 p2) table)
  end.

(** The columns of a JSON body. *)
Definition column_text (kv : list (string * pyval)) (name : string)
  : option (option string) :=
  match Py.lookup name kv with
  | Some (VStr s) => Some (Some s)
  | Some VNone | None => Some None
  | Some _ => None
  end.

Definition column_bool (kv : list (string * pyval)) (name : string)
    (default : option bool) : option (option bool) :=
  match Py.lookup name kv with
  | Some (VBool b) => Some (Some b)
  | Some VNone => Some None
  | None => Some default
  | Some _ => None
  end.

(** The row a POST inserts: [title] is NOT NULL, [completed] defaults
    to false. *)
Definition insert_row (d : db) (kv : list (string * pyval)) : option row :=
  match column_text kv "title", column_text kv "description",
        column_bool kv "completed" (Some false) with
  | Some (Some t), Some de, Some c =>
      Some (Row (next_id d) t de c (clock d) (clock d))
  | _, _, _ => None
  end.

(** What a PATCH makes of a row: the columns of the body replace the
    row's, the others stay. *)
Definition patch_row (kv : list (string * pyval)) (r : row) : option row :=
  match column_text kv "title", column_text kv "description",
        column_bool kv "completed" (completed r) with
  | Some t, Some de, Some c =>
      Some (Row (id r)
              (match t with Some t' => t' | None => title r end)
              (match Py.lookup "description" kv with
               | Some _ => de | None => description r end)
              c (created_at r) (updated_at r))
  | _, _, _ => None
  end.

Definition ok (status : Z) (url : string) (found : list row) : http_outcome :=
  Resp (Response status "OK" url (Some (VList (map to_json found)))).

Definition bad_request (url : string) : http_outcome :=
  Resp (Response 400 "Bad Request" url
          (Some (VDict [("message", VStr "bad request")]))).

Definition tick (d : db) (table : list row) : db :=
  Db table (next_id d) (clock d + 1).

(** The service under [root]: every call is answered, and writes answer
    with the rows they touched ([Prefer: return=representation]). *)
Definition serve (root : string) (rq : http_request) (d : db)
  : db * http_outcome :=
  match strip_prefix (root +:+ "/rest/v1/") (rq_url rq) with
  | None => (d, ConnFailed "Name or service not known")
  | Some endpoint =>
      match rq_verb rq with
      | GET =>
          match parse_endpoint endpoint with
          | Some q => (d, ok 200 (rq_url rq) (select q (rows d)))
          | None => (d, bad_request (rq_url rq))
          end
      | POST =>
          match rq_json rq with
          | Some (VDict kv) =>
              if String.eqb endpoint "tasks" then
                match insert_row d kv with
                | Some r =>
                    (Db (rows d ++ [r]) (next_id d + 1) (clock d + 1),
                     ok 201 (rq_url rq) [r])
                | None => (d, bad_request (rq_url rq))
                end
              else (d, bad_request (rq_url rq))
          | _ => (d, bad_request (rq_url rq))
          end
      | PATCH =>
          match rq_json rq, parse_endpoint endpoint with
          | Some (VDict kv), Some (ById n) =>
              let touched := List.filter (fun r => id r =? n) (rows d) in
              match mapM (patch_row kv) touched with
              | Some patched =>
                  (tick d (map (fun r => if id r =? n
                                         then default r (patch_row kv r)
                                         else r)
                             (rows d)),
                   ok 200 (rq_url rq) patched)
              | None => (d, bad_request (rq_url rq))
              end
          | _, _ => (d, bad_request (rq_url rq))
          end
      | DELETE =>
          match parse_endpoint endpoint with
          | Some (ById n) =>
              (tick d (List.filter (fun r => negb (id r =? n)) (rows d)),
               ok 200 (rq_url rq) (List.filter (fun r => id r =? n) (rows d)))
          | _ => (d, bad_request (rq_url rq))
          end
      end
  end.

Definition platform (root : string) : platform :=
  {| World := db;
     send := serve root;
     now_iso := fun d => Py.str_int (clock d);
     int_of_str := DecimalInt.parse |}.

Definition empty : db := Db [] 1 0.

End Remote.

(** ** Searching, as the specification words it *)

(** [q] occurs in [s]. *)
Fixpoint starts_with (q s : string) : bool :=
  match q with
  | EmptyString => true
  | String c q' =>
      match s with
      | EmptyString => false
      | String d s' => Ascii.eqb c d && starts_with q' s'
      end
  end.

Fixpoint contains (q s : string) : bool :=
  starts_with q s
  || match s with
     | EmptyString => false
     | String _ s' => contains q s'
     end.

(** The title or the description of the row contains [q], letter case
    ignored. *)
Definition mentions (q : string) (r : Remote.row) : bool :=
  contains (Py.lower q) (Py.lower (Remote.title r))
  || match Remote.description r with
     | Some d => contains (Py.lower q) (Py.lower d)
     | None => false
     end.

Fixpoint all_chars (f : ascii -> bool) (s : string) : bool :=
  match s with
  | EmptyString => true
  | String c s' => f c && all_chars f s'
  end.

(** An ASCII letter or digit. *)
Definition alphanumeric (c : ascii) : bool :=
  let n := N_of_ascii c in
  ((48 <=? n) && (n <=? 57) || (65 <=? n) && (n <=? 90)
   || (97 <=? n) && (n <=? 122))%N.

(** A string without [*]. *)
Definition star_free (s : string) : bool :=
  all_chars (fun c => negb (Ascii.eqb c "*")) s.

(** A query made of ASCII letters and digits only. *)
Definition plain (q : string) : bool := all_chars alphanumeric q.

(** Newest first. *)
Definition newer_or_same (a b : Remote.row) : Prop :=
  Remote.created_at b <= Remote.created_at a.

(** A small table: three tasks, the middle one without description. *)
Definition sample_db : Remote.db :=
  Remote.Db [Remote.Row 1 "First steps" (Some "read the manual") (Some false) 10 10;
             Remote.Row 2 "axb" None (Some false) 20 20;
             Remote.Row 3 "Campfire" (Some "bring wood") (Some true) 30 30]
            4 31.

(** ** database.py: SupabaseClient.__init__ *)

(** [isinstance(e, KeyError)]. *)
Definition is_KeyError (e : exn) : bool :=
  match exn_cls e with KeyError => true | _ => false end.

Section Init.
Context {P : platform}.
(** [str(e)] of the [KeyError] that [st.secrets] raises for a key it does
    not have. *)
Variable missing_key_message : string -> string.

(** [m[k]] on [st.secrets] or on one of its sections. *)
Definition secrets_item {V : Type} (m : gmap string V) (k : string) : exn + V :=
  match m !! k with
  | Some v => inr v
  | None => inl (Exn KeyError (missing_key_message k))
  end.

(** [SupabaseClient()], on the secrets as loaded: sections of text
    entries.  The two header dicts are [headers] and [admin_headers] of
    the client it builds. *)
Definition __init__ (secrets : gmap string (gmap string string))
  : M P SupabaseClient :=
  try_except
    (section <- lift (secrets_item secrets "supabase") ;;
     url <- lift (secrets_item section "url") ;;
     section <- lift (secrets_item secrets "supabase") ;;
     key <- lift (secrets_item section "key") ;;
     section <- lift (secrets_item secrets "supabase") ;;
     let service_key := default key (section !! "service_key") in
     ret {| url := url; key := key; service_key := service_key |})
    is_KeyError
    (fun e => st_error ("Missing Supabase configuration: " +:+ exn_str e) ;;
              raise e).

End Init.

(** ** config.py: class Config *)

Module Config.

(** The class attributes that are read from the environment, after
    [load_dotenv()]. *)
Record t : Type := {
  SUPABASE_URL : option string;
  SUPABASE_KEY : option string;
  SUPABASE_SERVICE_KEY : option string;
  DEBUG : bool
}.

(** The class body: [os.getenv(name)] is the entry of [environ], or
    [None]. *)
Definition load (environ : gmap string string) : t :=
  {| SUPABASE_URL := environ !! "SUPABASE_URL";
     SUPABASE_KEY := environ !! "SUPABASE_KEY";
     SUPABASE_SERVICE_KEY := environ !! "SUPABASE_SERVICE_KEY";
     DEBUG := String.eqb (Py.lower (default "False" (environ !! "DEBUG"))) "true" |}.

(** [getattr(cls, var)] for the names [validate_config] asks for. *)
Definition getattr (cls : t) (var : string) : exn + option string :=
  if String.eqb var "SUPABASE_URL" then inr (SUPABASE_URL cls)
  else if String.eqb var "SUPABASE_KEY" then inr (SUPABASE_KEY cls)
  else if String.eqb var "SUPABASE_SERVICE_KEY" then inr (SUPABASE_SERVICE_KEY cls)
  else inl (Exn AttributeError
              ("type object 'Config' has no attribute '" +:+ var +:+ "'")).

Definition required_vars : list string := ["SUPABASE_URL"; "SUPABASE_KEY"].

(** The loop that collects the names whose value is [None] or empty. *)
Fixpoint collect_missing (cls : t) (vars : list string) (missing_vars : list string)
  : exn + list string :=
  match vars with
  | [] => inr missing_vars
  | var :: rest =>
      match getattr cls var with
      | inl e => inl e
      | inr value =>
          collect_missing cls rest
            (if given value then missing_vars else (missing_vars ++ [var])%list)
      end
  end.

(** [', '.join(names)]. *)
Fixpoint join (names : list string) : string :=
  match names with
  | [] => EmptyString
  | [name] => name
  | name :: rest => name +:+ ", " +:+ join rest
  end.

Definition validate_config (cls : t) : exn + bool :=
  match collect_missing cls required_vars [] with
  | inl e => inl e
  | inr missing_vars =>
      match missing_vars with
      | [] => inr true
      | _ => inl (Exn ValueError
                    ("Missing required configuration: " +:+ join missing_vars))
      end
  end.

End Config.

(** The state once [set_cors_headers()] has run. *)
Definition with_cors {P : platform} (s : state P) : state P :=
  State (world s) (page s ++ [Markdown cors_script true]) (sent s).

(** What a write returns from the decoded answer: the first item of a
    list, anything else as it is. *)
Definition first_if_list (v : pyval) : exn + pyval :=
  if Py.is_list v then Py.item0 v else inr v.
Example truthy_examples :
  map Py.truthy [VNone; VBool true; VInt 0; VFloat 0%float; VStr EmptyString; VStr "0"; VList []; VDict []]
  = [false; true; false; false; false; true; false; false].
Proof. reflexivity. Qed.

Example rate_example : Py.mul_int (Py.truediv 1 2) 100 = 50%float.
Proof. reflexivity. Qed.

Ltac run := unfold try_except, bind, ret, raise, lift, st_error, st_json,
  st_markdown, st_stop, emit, requests_call, raise_for_status, json; cbn.

Section MakeRequest.
Context {P : platform}.
Variable self : SupabaseClient.

Lemma http_error_is_RequestException r e :
  http_error_of r = Some e -> is_RequestException e = true.
Proof.
  unfold http_error_of.
  destruct (_ && _); [intros [= <-]; reflexivity|].
  destruct (_ && _); [intros [= <-]; reflexivity|discriminate].
Qed.

Lemma call_exn_is_RequestException o e :
  call_exn o = Some e -> is_RequestException e = true.
Proof.
  destruct o as [msg|r]; cbn.
  - intros [= <-]. reflexivity.
  - apply http_error_is_RequestException.
Qed.

Lemma call_exn_response o :
  call_exn o = None <-> exists r, call_response o = Some r.
Proof.
  destruct o as [msg|r]; cbn.
  - split; [discriminate|intros [r [=]]].
  - destruct (http_error_of r); split; try discriminate; eauto.
    intros [r' [=]].
Qed.

Lemma call_exclusive o e r :
  call_exn o = Some e -> call_response o = Some r -> False.
Proof.
  destruct o as [msg|r']; cbn; [discriminate|].
  destruct (http_error_of r'); discriminate.
Qed.

(** A failed call: the error is reported on the page and raised again. *)
Lemma make_request_raises v endpoint data use_admin (s : state P) w' o e :
  send P (request_of self v endpoint data use_admin) (world s) = (w', o) ->
  call_exn o = Some e ->
  _make_request self (method_name v) endpoint data use_admin s
  = (State w' (page s ++ [Error ("Database request failed: " +:+ exn_str e)])
       (sent s ++ [request_of self v endpoint data use_admin]),
     Raise e).
Proof.
  intros Hsend Hexn.
  pose proof (call_exn_is_RequestException _ _ Hexn) as Hcls.
  unfold _make_request, request_of in *.
  destruct v; run; rewrite Hsend; destruct o as [msg|r]; cbn in *.
  all: try (injection Hexn as <-; reflexivity).
  all: rewrite Hexn; cbn; rewrite Hcls; reflexivity.
Qed.

(** A call that went through: the response is returned, nothing is
    written on the page. *)
Lemma make_request_returns v endpoint data use_admin (s : state P) w' o r :
  send P (request_of self v endpoint data use_admin) (world s) = (w', o) ->
  call_response o = Some r ->
  _make_request self (method_name v) endpoint data use_admin s
  = (State w' (page s) (sent s ++ [request_of self v endpoint data use_admin]),
     Ret r).
Proof.
  intros Hsend Hresp.
  unfold _make_request, request_of in *.
  destruct o as [msg|r']; cbn in Hresp; [discriminate|].
  destruct (http_error_of r') eqn:Herr; [discriminate|].
  injection Hresp as ->.
  destruct v; run; rewrite Hsend; cbn; rewrite Herr; reflexivity.
Qed.

End MakeRequest.

(** ** The shape every operation of the client shares *)

Section Calls.
Context {P : platform}.
Variable self : SupabaseClient.

(** When the call fails, the handler of the operation runs on the
    exception, after [_make_request] has reported it. *)
Lemma call_fails {A} v endpoint data (k : response -> M P A)
    (h : exn -> M P A) (s : state P) e :
  fails_with s (request_of self v endpoint data false) e ->
  try_except
    (response <- _make_request self (method_name v) endpoint data false ;;
     k response) is_Exception h s
  = h e (State (fst (send P (request_of self v endpoint data false) (world s)))
               (page s ++ [Error ("Database request failed: " +:+ exn_str e)])
               (sent s ++ [request_of self v endpoint data false])).
Proof.
  unfold fails_with. intros Hexn.
  destruct (send P _ (world s)) as [w' o] eqn:Hsend. cbn in Hexn.
  unfold try_except, bind.
  rewrite (make_request_raises self v endpoint data false s w' o e Hsend Hexn).
  reflexivity.
Qed.

(** When the call goes through, the rest of the [try] body runs on the
    response, under the same handler. *)
Lemma call_returns {A} v endpoint data (k : response -> M P A)
    (h : exn -> M P A) (s : state P) r :
  call_response (snd (send P (request_of self v endpoint data false) (world s)))
  = Some r ->
  try_except
    (response <- _make_request self (method_name v) endpoint data false ;;
     k response) is_Exception h s
  = try_except (k r) is_Exception h
      (State (fst (send P (request_of self v endpoint data false) (world s)))
             (page s) (sent s ++ [request_of self v endpoint data false])).
Proof.
  intros Hresp.
  destruct (send P _ (world s)) as [w' o] eqn:Hsend. cbn in Hresp.
  unfold try_except, bind.
  rewrite (make_request_returns self v endpoint data false s w' o r Hsend Hresp).
  reflexivity.
Qed.

(** Every call either fails with an exception or yields a response. *)
Lemma call_cases (s : state P) rq :
  (exists e, fails_with s rq e)
  \/ (exists r, call_response (snd (send P rq (world s))) = Some r).
Proof.
  unfold fails_with.
  destruct (call_exn (snd (send P rq (world s)))) eqn:H; [eauto|].
  right. apply call_exn_response, H.
Qed.

Lemma get_all_tasks_fails (s : state P) e :
  fails_with s (request_of self GET list_endpoint None false) e ->
  get_all_tasks self s
  = (State (fst (send P (request_of self GET list_endpoint None false) (world s)))
           ((page s ++ [Error ("Database request failed: " +:+ exn_str e)])
            ++ [Error ("Failed to fetch tasks: " +:+ exn_str e)])
           (sent s ++ [request_of self GET list_endpoint None false]),
     Ret (VList [])).
Proof.
  intros H. unfold get_all_tasks.
  rewrite (call_fails GET list_endpoint None _ _ s e H). reflexivity.
Qed.

Lemma get_all_tasks_answers (s : state P) v :
  answers s (request_of self GET list_endpoint None false) v ->
  get_all_tasks self s
  = (State (fst (send P (request_of self GET list_endpoint None false) (world s)))
           (page s) (sent s ++ [request_of self GET list_endpoint None false]),
     Ret v).
Proof.
  intros (r & Hr & Hbody). unfold get_all_tasks.
  rewrite (call_returns GET list_endpoint None _ _ s r Hr).
  run. rewrite Hbody. reflexivity.
Qed.

(** [get_all_tasks] never raises and never stops the script. *)
Lemma get_all_tasks_total (s : state P) :
  exists s' v, get_all_tasks self s = (s', Ret v).
Proof.
  destruct (call_cases s (request_of self GET list_endpoint None false))
    as [[e H]|[r H]]; unfold get_all_tasks.
  - rewrite (call_fails GET list_endpoint None _ _ s e H). run. eauto.
  - rewrite (call_returns GET list_endpoint None _ _ s r H). run.
    destruct (body r); cbn; eauto.
Qed.

End Calls.

(** ** Failures of the remote call: reads degrade, writes raise *)

Section Failures.
Context {P : platform}.
Variable self : SupabaseClient.

Lemma get_task_stats_fails (s : state P) e :
  fails_with s (request_of self GET list_endpoint None false) e ->
  snd (get_task_stats self s) = Ret zero_stats.
Proof.
  intros H. unfold get_task_stats, try_except, bind.
  rewrite (get_all_tasks_fails self s e H). reflexivity.
Qed.

Lemma search_tasks_fails (s : state P) query e :
  fails_with s (request_of self GET (search_endpoint query) None false) e ->
  snd (search_tasks self query s) = Ret (VList []).
Proof.
  intros H. unfold search_tasks.
  rewrite (call_fails self GET (search_endpoint query) None _ _ s e H).
  reflexivity.
Qed.

Lemma create_task_fails (s : state P) title description e :
  fails_with s (request_of self POST "tasks"
                  (Some (task_payload title description false)) false) e ->
  snd (create_task self title description s) = Raise e.
Proof.
  intros H. unfold create_task.
  rewrite (call_fails self POST "tasks" _ _ _ s e H). reflexivity.
Qed.

Lemma update_task_fails (s : state P) task_id title description completed e :
  fails_with s (request_of self PATCH (id_endpoint task_id)
                  (Some (task_payload title description completed)) false) e ->
  snd (update_task self task_id title description completed s) = Raise e.
Proof.
  intros H. unfold update_task.
  rewrite (call_fails self PATCH (id_endpoint task_id) _ _ _ s e H).
  reflexivity.
Qed.

End Failures.

(** C1.  Whenever the remote call fails (the transport raises, or the
    status is 4xx or 5xx) with exception [e]: [get_all_tasks] and
    [search_tasks] return the empty list and [get_task_stats] returns the
    zeroed record, none of them raising; [create_task] and [update_task]
    raise [e] to their caller. *)
Theorem read_write_error_asymmetry {P : platform} (self : SupabaseClient)
    (s : state P) (e : exn) :
  (fails_with s (request_of self GET list_endpoint None false) e ->
   snd (get_all_tasks self s) = Ret (VList [])
   /\ snd (get_task_stats self s) = Ret zero_stats)
  /\ (forall query,
        fails_with s (request_of self GET (search_endpoint query) None false) e ->
        snd (search_tasks self query s) = Ret (VList []))
  /\ (forall title description,
        fails_with s (request_of self POST "tasks"
                        (Some (task_payload title description false)) false) e ->
        snd (create_task self title description s) = Raise e)
  /\ (forall task_id title description completed,
        fails_with s (request_of self PATCH (id_endpoint task_id)
                        (Some (task_payload title description completed)) false) e ->
        snd (update_task self task_id title description completed s) = Raise e).
Proof.
  repeat split.
  - rewrite (get_all_tasks_fails self s e H). reflexivity.
  - apply (get_task_stats_fails self s e H).
  - intros query H. apply (search_tasks_fails self s query e H).
  - intros title description H. apply (create_task_fails self s _ _ e H).
  - intros task_id title description completed H.
    apply (update_task_fails self s _ _ _ _ e H).
Qed.

(** The asymmetry on a remote that refuses every connection. *)
Lemma read_write_error_asymmetry_witness :
  let s := start offline tt in
  let e := Exn RequestException "Connection refused" in
  snd (get_all_tasks demo_client s) = Ret (VList [])
  /\ snd (get_task_stats demo_client s) = Ret zero_stats
  /\ snd (search_tasks demo_client "milk" s) = Ret (VList [])
  /\ snd (create_task demo_client "milk" "two litres" s) = Raise e
  /\ snd (update_task demo_client 3 "milk" "two litres" true s) = Raise e.
Proof.
  intros s e.
  destruct (read_write_error_asymmetry demo_client s e) as (Hread & Hsearch & Hcreate & Hupdate).
  destruct (Hread eq_refl) as [Hall Hstats].
  split; [exact Hall|]. split; [exact Hstats|].
  split; [exact (Hsearch "milk" eq_refl)|].
  split; [exact (Hcreate "milk" "two litres" eq_refl)|].
  exact (Hupdate 3 "milk" "two litres" true eq_refl).
Defined.

(** C8.  [delete_task] always returns a boolean, never raising and never
    stopping the script: [true] exactly when the remote call went through,
    [false] exactly when it failed. *)
Theorem delete_task_returns_bool {P : platform} (self : SupabaseClient)
    (s : state P) (task_id : Z) :
  let rq := request_of self DELETE (id_endpoint task_id) None false in
  exists b,
    snd (delete_task self task_id s) = Ret b
    /\ (b = true <-> exists r, call_response (snd (send P rq (world s))) = Some r)
    /\ (b = false <-> exists e, fails_with s rq e).
Proof.
  intros rq.
  destruct (call_cases s rq) as [[e H]|[r H]].
  - exists false. unfold delete_task.
    rewrite (call_fails self DELETE (id_endpoint task_id) None _ _ s e H).
    split; [reflexivity|]. split; split; try discriminate; eauto.
    intros [r Hr]. destruct (call_exclusive _ _ _ H Hr).
  - exists true. unfold delete_task.
    rewrite (call_returns self DELETE (id_endpoint task_id) None _ _ s r H).
    split; [reflexivity|]. split; split; try discriminate; eauto.
    intros [e He]. destruct (call_exclusive _ _ _ He H).
Qed.

(** ** Statistics *)

Lemma chars_length s : length (Py.chars s) = String.length s.
Proof. induction s as [|c s IH]; cbn; [reflexivity|now rewrite IH]. Qed.

(** [len] and [for] agree on how many items a value has. *)
Lemma len_iter v total items :
  Py.len v = inr total -> Py.iter v = inr items ->
  total = Z.of_nat (length items).
Proof.
  destruct v; cbn; try discriminate; intros [= <-] [= <-].
  - now rewrite chars_length.
  - reflexivity.
  - now rewrite length_map.
Qed.

Lemma comprehension_length test items kept :
  comprehension test items = inr kept -> (length kept <= length items)%nat.
Proof.
  revert kept. induction items as [|x rest IH]; cbn; intros kept.
  - intros [= <-]. cbn. lia.
  - destruct (test x) as [e|b]; [discriminate|].
    destruct (comprehension test rest) as [e|kept']; [discriminate|].
    specialize (IH kept' eq_refl).
    intros [= <-]. destruct b; cbn; lia.
Qed.

Lemma is_completed_dict task :
  is_dict task = true -> is_completed task = inr (completed_flag task).
Proof.
  destruct task; try discriminate. intros _.
  unfold is_completed, completed_flag. cbn.
  destruct (Py.lookup "completed" kv); reflexivity.
Qed.

Lemma is_completed_other task :
  is_dict task = false -> exists e, is_completed task = inl e.
Proof. destruct task; try discriminate; intros _; cbn; eauto. Qed.

(** On dicts the comprehension is a filter; any other item makes it
    raise. *)
Lemma comprehension_dicts items :
  forallb is_dict items = true ->
  comprehension is_completed items = inr (List.filter completed_flag items).
Proof.
  induction items as [|x rest IH]; cbn; [reflexivity|].
  intros [Hx Hrest]%andb_prop.
  rewrite (is_completed_dict x Hx), (IH Hrest). reflexivity.
Qed.

Lemma comprehension_returns items kept :
  comprehension is_completed items = inr kept -> forallb is_dict items = true.
Proof.
  revert kept. induction items as [|x rest IH]; cbn; intros kept; [reflexivity|].
  destruct (is_dict x) eqn:Hx.
  - rewrite (is_completed_dict x Hx).
    destruct (comprehension is_completed rest) as [e|kept']; [discriminate|].
    intros _. now rewrite (IH kept' eq_refl).
  - destruct (is_completed_other x Hx) as [e ->]. discriminate.
Qed.

(** A value whose items are all dicts and that has a length is a list of
    dicts, or has no item at all. *)
Lemma iter_dicts v items :
  Py.iter v = inr items -> forallb is_dict items = true ->
  v = VList items \/ items = [].
Proof.
  destruct v; cbn; try discriminate; intros [= <-].
  - destruct s; cbn; [auto|discriminate].
  - auto.
  - destruct kv; cbn; [auto|discriminate].
Qed.

Section Stats.
Context {P : platform}.
Variable self : SupabaseClient.

Lemma answers_unique (s : state P) rq v1 v2 :
  answers s rq v1 -> answers s rq v2 -> v1 = v2.
Proof. intros (r1 & H1 & B1) (r2 & H2 & B2). congruence. Qed.

(** What [get_all_tasks] hands to its caller: the decoded body when the
    call answered one, the empty list otherwise. *)
Lemma get_all_tasks_cases (s : state P) :
  let rq := request_of self GET list_endpoint None false in
  (exists v, answers s rq v /\ snd (get_all_tasks self s) = Ret v)
  \/ ((forall v, ~ answers s rq v) /\ snd (get_all_tasks self s) = Ret (VList [])).
Proof.
  intros rq.
  destruct (call_cases s rq) as [[e H]|[r H]].
  - right. split.
    + intros v (r & Hr & _). exact (call_exclusive _ _ _ H Hr).
    + now rewrite (get_all_tasks_fails self s e H).
  - destruct (body r) as [v|] eqn:Hbody.
    + left. exists v. assert (answers s rq v) as Ha by (exists r; auto).
      split; [exact Ha|]. now rewrite (get_all_tasks_answers self s v Ha).
    + right. split.
      * intros v (r' & Hr' & Hb'). fold rq in H. congruence.
      * unfold get_all_tasks.
        rewrite (call_returns self GET list_endpoint None _ _ s r H).
        run. rewrite Hbody. reflexivity.
Qed.

End Stats.

(** C2.  [get_task_stats] always returns a record (it never raises) in
    which [total = completed + pending]; the rate is [0] when [total] is
    [0] and [completed / total * 100] otherwise.  When the remote answers
    with a list of task records, [total] is its length and [completed] the
    number of records whose [completed] entry is truthy.  In every other
    case (the call fails, the body is not JSON, the body is not a list of
    records) the record is all zeros. *)
Theorem get_task_stats_spec {P : platform} (self : SupabaseClient) (s : state P) :
  let rq := request_of self GET list_endpoint None false in
  exists total completed pending rate,
    snd (get_task_stats self s) = Ret (stats_record total completed pending rate)
    /\ total = completed + pending
    /\ 0 <= completed <= total
    /\ (total = 0 -> rate = VInt 0)
    /\ (total <> 0 -> rate = VFloat (Py.mul_int (Py.truediv completed total) 100))
    /\ (forall tasks,
          answers s rq (VList tasks) -> forallb is_dict tasks = true ->
          total = Z.of_nat (length tasks)
          /\ completed = Z.of_nat (length (List.filter completed_flag tasks)))
    /\ ((forall tasks, answers s rq (VList tasks) -> forallb is_dict tasks = false) ->
        total = 0 /\ completed = 0 /\ pending = 0 /\ rate = VInt 0)
    /\ (forall e, fails_with s rq e ->
        total = 0 /\ completed = 0 /\ pending = 0 /\ rate = VInt 0).
Proof.
  intros rq.
  pose proof (get_all_tasks_cases self s) as Hcases. cbn zeta in Hcases. fold rq in Hcases.
  destruct (get_all_tasks_total self s) as (s' & v & Hrun).
  rewrite Hrun in Hcases. cbn [snd] in Hcases.
  assert (forall tasks, answers s rq (VList tasks) -> v = VList tasks) as Hanswer.
  { intros tasks Ha. destruct Hcases as [(v' & Hv' & [= ->])|[Hno _]].
    - exact (answers_unique s rq _ _ Hv' Ha).
    - destruct (Hno _ Ha). }
  assert (forall e, fails_with s rq e -> v = VList []) as Hfail.
  { intros e He. pose proof (get_all_tasks_fails self s e He) as Hf.
    rewrite Hrun in Hf. congruence. }
  unfold get_task_stats, try_except, bind. rewrite Hrun. cbn.
  assert (forall tasks, v = VList tasks -> forallb is_dict tasks = true ->
            Py.len v = inr (Z.of_nat (length tasks)) /\ Py.iter v = inr tasks
            /\ comprehension is_completed tasks = inr (List.filter completed_flag tasks))
    as Hlist.
  { intros tasks -> Hd. repeat split. now apply comprehension_dicts. }
  destruct (Py.len v) as [e|total] eqn:Hlen; cbn;
    [|destruct (Py.iter v) as [e|items] eqn:Hiter; cbn;
      [|destruct (comprehension is_completed items) as [e|kept] eqn:Hkept; cbn]].
  1-3: exists 0, 0, 0, (VInt 0); split; [reflexivity|];
       split; [lia|]; split; [lia|]; split; [reflexivity|];
       split; [intros Hne; now destruct Hne|];
       split; [intros tasks Ha Hd;
               destruct (Hlist tasks (Hanswer _ Ha) Hd) as (H1 & H2 & H3); congruence|];
       split; [intros _|intros e' _]; repeat split.
  pose proof (len_iter v total items Hlen Hiter) as ->.
  pose proof (comprehension_length _ _ _ Hkept) as Hle.
  pose proof (comprehension_returns _ _ Hkept) as Hdicts.
  assert (kept = List.filter completed_flag items) as Hfilter.
  { rewrite (comprehension_dicts items Hdicts) in Hkept. congruence. }
  exists (Z.of_nat (length items)), (Z.of_nat (length kept)),
    (Z.of_nat (length items) - Z.of_nat (length kept)),
    (if 0 <? Z.of_nat (length items)
     then VFloat (Py.mul_int (Py.truediv (Z.of_nat (length kept))
                                (Z.of_nat (length items))) 100)
     else VInt 0).
  split; [reflexivity|]. split; [lia|]. split; [lia|].
  split; [intros ->; reflexivity|].
  split; [intros Hne; destruct (Z.ltb_spec 0 (Z.of_nat (length items))); [reflexivity|lia]|].
  assert (items = [] -> Z.of_nat (length items) = 0 /\ Z.of_nat (length kept) = 0
            /\ Z.of_nat (length items) - Z.of_nat (length kept) = 0
            /\ (if 0 <? Z.of_nat (length items)
                then VFloat (Py.mul_int (Py.truediv (Z.of_nat (length kept))
                                           (Z.of_nat (length items))) 100)
                else VInt 0) = VInt 0) as Hempty.
  { intros ->. cbn in Hle. assert (length kept = 0%nat) as -> by lia.
    repeat split. }
  split; [|split].
  - intros tasks Ha Hd. destruct (Hlist tasks (Hanswer _ Ha) Hd) as (H1 & H2 & H3).
    assert (items = tasks) as -> by congruence. rewrite Hfilter. split; reflexivity.
  - intros Hnot. apply Hempty.
    destruct (iter_dicts v items Hiter Hdicts) as [->|Hnil]; [|exact Hnil].
    destruct Hcases as [(v' & Hv' & [= <-])|[_ [= ->]]]; [|reflexivity].
    rewrite (Hnot items Hv') in Hdicts. discriminate.
  - intros e He. apply Hempty. rewrite (Hfail e He) in Hiter.
    cbn in Hiter. congruence.
Qed.

(** Two tasks, one of them completed: half of them are done. *)
Lemma get_task_stats_spec_witness :
  snd (get_task_stats demo_client (start (answering 200 (VList sample_tasks)) tt))
  = Ret (stats_record 2 1 1 (VFloat 50%float)).
Proof.
  destruct (get_task_stats_spec demo_client
              (start (answering 200 (VList sample_tasks)) tt))
    as (total & completed & pending & rate & Hrun & Hsum & _ & _ & Hrate & Hlist & _).
  assert (answers (start (answering 200 (VList sample_tasks)) tt)
            (request_of demo_client GET list_endpoint None false)
            (VList sample_tasks)) as Ha.
  { eexists. split; reflexivity. }
  destruct (Hlist sample_tasks Ha eq_refl) as [Ht Hc].
  cbn in Ht, Hc. subst total completed.
  assert (pending = 1) as -> by lia.
  rewrite Hrate in Hrun by discriminate.
  exact Hrun.
Defined.

(** ** What the reads return *)

Section Reads.
Context {P : platform}.
Variable self : SupabaseClient.

Lemma search_tasks_answers (s : state P) query v :
  answers s (request_of self GET (search_endpoint query) None false) v ->
  search_tasks self query s
  = (State (fst (send P (request_of self GET (search_endpoint query) None false)
                   (world s)))
           (page s)
           (sent s ++ [request_of self GET (search_endpoint query) None false]),
     Ret v).
Proof.
  intros (r & Hr & Hbody). unfold search_tasks.
  rewrite (call_returns self GET (search_endpoint query) None _ _ s r Hr).
  run. rewrite Hbody. reflexivity.
Qed.

(** A match: the first record of the answer, nothing reported. *)
Lemma get_task_found (s : state P) task_id task rest :
  answers s (request_of self GET (id_endpoint task_id) None false)
    (VList (task :: rest)) ->
  get_task self task_id s
  = (State (fst (send P (request_of self GET (id_endpoint task_id) None false)
                   (world s)))
           (page s)
           (sent s ++ [request_of self GET (id_endpoint task_id) None false]),
     Ret task).
Proof.
  intros (r & Hr & Hbody). unfold get_task.
  rewrite (call_returns self GET (id_endpoint task_id) None _ _ s r Hr).
  run. rewrite Hbody. reflexivity.
Qed.

(** No match: [None], nothing reported. *)
Lemma get_task_absent (s : state P) task_id :
  answers s (request_of self GET (id_endpoint task_id) None false) (VList []) ->
  get_task self task_id s
  = (State (fst (send P (request_of self GET (id_endpoint task_id) None false)
                   (world s)))
           (page s)
           (sent s ++ [request_of self GET (id_endpoint task_id) None false]),
     Ret VNone).
Proof.
  intros (r & Hr & Hbody). unfold get_task.
  rewrite (call_returns self GET (id_endpoint task_id) None _ _ s r Hr).
  run. rewrite Hbody. reflexivity.
Qed.

(** A failed call: [None] again, and two messages on the page. *)
Lemma get_task_fails (s : state P) task_id e :
  fails_with s (request_of self GET (id_endpoint task_id) None false) e ->
  get_task self task_id s
  = (State (fst (send P (request_of self GET (id_endpoint task_id) None false)
                   (world s)))
           ((page s ++ [Error ("Database request failed: " +:+ exn_str e)])
            ++ [Error ("Failed to fetch task " +:+ Py.str_int task_id
                       +:+ ": " +:+ exn_str e)])
           (sent s ++ [request_of self GET (id_endpoint task_id) None false]),
     Ret VNone).
Proof.
  intros H. unfold get_task.
  rewrite (call_fails self GET (id_endpoint task_id) None _ _ s e H).
  reflexivity.
Qed.

End Reads.

(** C5, as the code has it.  [get_task] returns the first record of the
    answer when the equality filter matched, and [None] both when nothing
    matched and when the remote call failed.  A failure is told from an
    absence only by the messages it leaves on the page through
    [st.error]; the returned value is the same. *)
Theorem get_task_outcomes {P : platform} (self : SupabaseClient) (s : state P)
    (task_id : Z) :
  let rq := request_of self GET (id_endpoint task_id) None false in
  (forall task rest,
      answers s rq (VList (task :: rest)) ->
      snd (get_task self task_id s) = Ret task
      /\ page (fst (get_task self task_id s)) = page s)
  /\ (answers s rq (VList []) ->
      snd (get_task self task_id s) = Ret VNone
      /\ page (fst (get_task self task_id s)) = page s)
  /\ (forall e,
      fails_with s rq e ->
      snd (get_task self task_id s) = Ret VNone
      /\ page (fst (get_task self task_id s))
         = (page s ++ [Error ("Database request failed: " +:+ exn_str e);
                       Error ("Failed to fetch task " +:+ Py.str_int task_id
                              +:+ ": " +:+ exn_str e)])%list).
Proof.
  intros rq. repeat split.
  - now rewrite (get_task_found self s task_id task rest H).
  - now rewrite (get_task_found self s task_id task rest H).
  - now rewrite (get_task_absent self s task_id H).
  - now rewrite (get_task_absent self s task_id H).
  - now rewrite (get_task_fails self s task_id e H).
  - rewrite (get_task_fails self s task_id e H). cbn.
    now rewrite <- app_assoc.
Qed.

(** The three outcomes on three remotes: one that matches, one that does
    not, one that is down. *)
Lemma get_task_outcomes_witness :
  let found := start (answering 200 (VList sample_tasks)) tt in
  let absent := start (answering 200 (VList [])) tt in
  let down := start offline tt in
  snd (get_task demo_client 2 found)
  = Ret (VDict [("id", VInt 2); ("title", VStr "B"); ("completed", VBool true)])
  /\ snd (get_task demo_client 2 absent) = Ret VNone
  /\ page (fst (get_task demo_client 2 absent)) = []
  /\ snd (get_task demo_client 2 down) = Ret VNone
  /\ page (fst (get_task demo_client 2 down))
     = [Error "Database request failed: Connection refused";
        Error "Failed to fetch task 2: Connection refused"].
Proof.
  intros found absent down.
  destruct (get_task_outcomes demo_client found 2) as (Hfound & _ & _).
  destruct (get_task_outcomes demo_client absent 2) as (_ & Habsent & _).
  destruct (get_task_outcomes demo_client down 2) as (_ & _ & Hdown).
  split.
  { refine (proj1 (Hfound _ _ _)). eexists. split; reflexivity. }
  assert (answers absent (request_of demo_client GET (id_endpoint 2) None false)
            (VList [])) as Ha by (eexists; split; reflexivity).
  split; [exact (proj1 (Habsent Ha))|].
  split; [exact (proj2 (Habsent Ha))|].
  split; [exact (proj1 (Hdown (Exn RequestException "Connection refused") eq_refl))|].
  exact (proj2 (Hdown (Exn RequestException "Connection refused") eq_refl)).
Defined.

(** C5, as stated, fails: a remote that is down and a remote that finds
    no task make [get_task] return the same value, and [?api=task&id=7]
    answer the same envelope, a success with no data. *)
Lemma get_task_absence_like_failure :
  let rq := request_of demo_client GET (id_endpoint 7) None false in
  let down := start offline tt in
  let absent := start (answering 200 (VList [])) tt in
  let query_params : gmap string (string * list string) :=
    {[ "api" := ("task", []); "id" := ("7", []) ]} in
  fails_with down rq (Exn RequestException "Connection refused")
  /\ answers absent rq (VList [])
  /\ snd (get_task demo_client 7 down) = snd (get_task demo_client 7 absent)
  /\ json_responses (page (fst (script demo_client (ret tt) query_params down)))
     = [VDict [("status", VStr "success"); ("data", VNone)]]
  /\ json_responses (page (fst (script demo_client (ret tt) query_params absent)))
     = [VDict [("status", VStr "success"); ("data", VNone)]].
Proof.
  cbn zeta. split; [reflexivity|]. split; [eexists; split; reflexivity|].
  repeat split.
Qed.

(** C7, as the code has it.  The read operations hand on the decoded
    answer as it is: nothing is added to a record and nothing is changed
    in it.  Only where the layer itself reads [completed], in the
    comprehension of [get_task_stats], does a record without the entry
    count as not completed. *)
Theorem reads_return_records_unchanged {P : platform} (self : SupabaseClient)
    (s : state P) :
  (forall v,
      answers s (request_of self GET list_endpoint None false) v ->
      snd (get_all_tasks self s) = Ret v)
  /\ (forall query v,
      answers s (request_of self GET (search_endpoint query) None false) v ->
      snd (search_tasks self query s) = Ret v)
  /\ (forall task_id task rest,
      answers s (request_of self GET (id_endpoint task_id) None false)
        (VList (task :: rest)) ->
      snd (get_task self task_id s) = Ret task)
  /\ (forall kv,
      Py.lookup "completed" kv = None -> is_completed (VDict kv) = inr false).
Proof.
  repeat split.
  - intros v H. now rewrite (get_all_tasks_answers self s v H).
  - intros query v H. now rewrite (search_tasks_answers self s query v H).
  - intros task_id task rest H. now rewrite (get_task_found self s task_id task rest H).
  - intros kv H. unfold is_completed. cbn. now rewrite H.
Qed.

(** A row whose [completed] column is NULL and a record without the
    entry, as a remote may answer them. *)
Lemma reads_return_records_unchanged_witness :
  let null := VDict [("id", VInt 1); ("title", VStr "A"); ("completed", VNone)] in
  let bare := VDict [("id", VInt 2); ("title", VStr "B")] in
  let s := start (answering 200 (VList [null; bare])) tt in
  snd (get_all_tasks demo_client s) = Ret (VList [null; bare])
  /\ snd (search_tasks demo_client "a" s) = Ret (VList [null; bare])
  /\ snd (get_task demo_client 1 s) = Ret null
  /\ is_completed bare = inr false.
Proof.
  intros null bare s.
  destruct (reads_return_records_unchanged demo_client s) as (Hall & Hsearch & Hget & Hflag).
  split; [apply Hall; eexists; split; reflexivity|].
  split; [apply Hsearch; eexists; split; reflexivity|].
  split; [apply (Hget 1 null [bare]); eexists; split; reflexivity|].
  apply Hflag. reflexivity.
Defined.

(** C7, as stated, fails: the three reads return a record whose
    [completed] is [None], not a boolean. *)
Lemma read_returns_record_without_boolean :
  let null := VDict [("id", VInt 1); ("title", VStr "A"); ("completed", VNone)] in
  let s := start (answering 200 (VList [null])) tt in
  has_bool_completed null = false
  /\ snd (get_all_tasks demo_client s) = Ret (VList [null])
  /\ snd (search_tasks demo_client "A" s) = Ret (VList [null])
  /\ snd (get_task demo_client 1 s) = Ret null.
Proof. cbn zeta. repeat split. Qed.

(** ** What the client and the routes write on the page *)

Lemma json_responses_app p q :
  json_responses (p ++ q) = (json_responses p ++ json_responses q)%list.
Proof.
  induction p as [|el p IH]; cbn; [reflexivity|].
  destruct el; cbn; now rewrite IH.
Qed.

Create HintDb quiet.

Section Quiet.
Context {P : platform}.

Lemma quiet_ret {A} (a : A) : quiet (P := P) (ret a).
Proof. intros s. cbn. split; [reflexivity|discriminate]. Qed.

Lemma quiet_raise {A} e : quiet (P := P) (A := A) (raise e).
Proof. intros s. cbn. split; [reflexivity|discriminate]. Qed.

Lemma quiet_lift {A} (r : exn + A) : quiet (P := P) (lift r).
Proof. destruct r; [apply quiet_raise|apply quiet_ret]. Qed.

Lemma quiet_st_error msg : quiet (P := P) (st_error msg).
Proof.
  intros s. cbn. rewrite json_responses_app. cbn.
  rewrite app_nil_r. split; [reflexivity|discriminate].
Qed.

Lemma quiet_st_markdown text unsafe : quiet (P := P) (st_markdown text unsafe).
Proof.
  intros s. cbn. rewrite json_responses_app. cbn.
  rewrite app_nil_r. split; [reflexivity|discriminate].
Qed.

Lemma quiet_requests_call v url hs data : quiet (P := P) (requests_call v url hs data).
Proof.
  intros s. unfold requests_call.
  destruct (send P _ (world s)) as [w' [msg|r]]; cbn;
    (split; [reflexivity|discriminate]).
Qed.

Lemma quiet_bind {A B} (m : M P A) (k : A -> M P B) :
  quiet m -> (forall a, quiet (k a)) -> quiet (bind m k).
Proof.
  intros Hm Hk s. unfold bind. destruct (Hm s) as [Hpage Hend].
  destruct (m s) as [s' [a|e|]]; cbn in *.
  - destruct (Hk a s') as [Hpage' Hend']. split; [congruence|assumption].
  - split; [assumption|discriminate].
  - destruct Hend. reflexivity.
Qed.

Lemma quiet_try_except {A} (body : M P A) catches handler :
  quiet body -> (forall e, quiet (handler e)) ->
  quiet (try_except body catches handler).
Proof.
  intros Hb Hh s. unfold try_except. destruct (Hb s) as [Hpage Hend].
  destruct (body s) as [s' [a|e|]]; cbn in *.
  - split; [assumption|discriminate].
  - destruct (catches e).
    + destruct (Hh e s') as [Hpage' Hend']. split; [congruence|assumption].
    + split; [assumption|discriminate].
  - destruct Hend. reflexivity.
Qed.

Lemma quiet_if {A} (c : bool) (m1 m2 : M P A) :
  quiet m1 -> quiet m2 -> quiet (if c then m1 else m2).
Proof. destruct c; auto. Qed.

Lemma quiet_raise_for_status r : quiet (P := P) (raise_for_status r).
Proof.
  unfold raise_for_status.
  destruct (http_error_of r); [apply quiet_raise|apply quiet_ret].
Qed.

Lemma quiet_json r : quiet (P := P) (json r).
Proof. unfold json. destruct (body r); [apply quiet_ret|apply quiet_raise]. Qed.

Lemma quiet_timestamp_now : quiet (P := P) timestamp_now.
Proof. intros s. cbn. split; [reflexivity|discriminate]. Qed.

End Quiet.

#[export] Hint Resolve quiet_ret quiet_raise quiet_lift quiet_st_error
  quiet_st_markdown quiet_requests_call quiet_raise_for_status quiet_json
  quiet_timestamp_now : quiet.
#[export] Hint Extern 2 (quiet (bind _ _)) => apply quiet_bind; [|intro] : quiet.
#[export] Hint Extern 2 (quiet (try_except _ _ _)) =>
  apply quiet_try_except; [|intro] : quiet.
#[export] Hint Extern 2 (quiet (if _ then _ else _)) => apply quiet_if : quiet.

Section QuietClient.
Context {P : platform}.
Variable self : SupabaseClient.

Lemma quiet_make_request method endpoint data use_admin :
  quiet (P := P) (_make_request self method endpoint data use_admin).
Proof. unfold _make_request. auto 10 with quiet. Qed.

Hint Resolve quiet_make_request : quiet.

Lemma quiet_get_all_tasks : quiet (P := P) (get_all_tasks self).
Proof. unfold get_all_tasks. auto 10 with quiet. Qed.

Lemma quiet_get_task task_id : quiet (P := P) (get_task self task_id).
Proof. unfold get_task. auto 10 with quiet. Qed.

Lemma quiet_create_task title description :
  quiet (P := P) (create_task self title description).
Proof. unfold create_task. auto 10 with quiet. Qed.

Lemma quiet_update_task task_id title description completed :
  quiet (P := P) (update_task self task_id title description completed).
Proof. unfold update_task. auto 10 with quiet. Qed.

Lemma quiet_delete_task task_id : quiet (P := P) (delete_task self task_id).
Proof. unfold delete_task. auto 10 with quiet. Qed.

End QuietClient.

#[export] Hint Resolve quiet_get_all_tasks quiet_get_task quiet_create_task
  quiet_update_task quiet_delete_task : quiet.

Section Envelopes.
Context {P : platform}.

Lemma emits_st_json v : is_envelope v = true -> emits (P := P) (st_json v).
Proof.
  intros Hv s. left. cbn. split; [reflexivity|].
  exists v. split; [assumption|]. now rewrite json_responses_app.
Qed.

Lemma emits_bind {A} (m : M P A) (k : A -> M P unit) :
  quiet m -> (forall a, emits (k a)) -> emits (bind m k).
Proof.
  intros Hm Hk s. unfold bind. destruct (Hm s) as [Hpage Hend].
  destruct (m s) as [s' [a|e|]]; cbn in *.
  - destruct (Hk a s') as [[Hret (v & Hv & Hjs)]|[Hjs He]].
    + left. split; [assumption|]. exists v. split; [assumption|congruence].
    + right. split; [congruence|assumption].
  - right. split; [assumption|eauto].
  - destruct Hend. reflexivity.
Qed.

Lemma emits_if (c : bool) (m1 m2 : M P unit) :
  emits m1 -> emits m2 -> emits (if c then m1 else m2).
Proof. destruct c; auto. Qed.

(** A block that wrote its envelope, followed by [st.stop()]. *)
Lemma replies_stop (m : M P unit) : emits m -> replies (m ;; st_stop).
Proof.
  intros Hm s. unfold bind.
  destruct (Hm s) as [[Hret Hv]|[Hjs [e He]]];
    destruct (m s) as [s' o]; cbn in *; subst o; cbn; [left|right]; eauto.
Qed.

Lemma replies_bind {A} (m : M P A) (k : A -> M P unit) :
  quiet m -> (forall a, replies (k a)) -> replies (bind m k).
Proof.
  intros Hm Hk s. unfold bind. destruct (Hm s) as [Hpage Hend].
  destruct (m s) as [s' [a|e|]]; cbn in *.
  - destruct (Hk a s') as [[Hret (v & Hv & Hjs)]|[Hjs He]].
    + left. split; [assumption|]. exists v. split; [assumption|congruence].
    + right. split; [congruence|assumption].
  - right. split; [assumption|eauto].
  - destruct Hend. reflexivity.
Qed.

Lemma error_envelope_is_envelope msg : is_envelope (error_envelope msg) = true.
Proof. reflexivity. Qed.

(** The handler of the routes turns an exception into an error envelope
    and stops. *)
Lemma responds_try (body : M P unit) :
  replies body -> responds (try_except body is_Exception report).
Proof.
  intros Hb s. unfold try_except.
  destruct (Hb s) as [[Hhalt Hv]|[Hjs [e He]]];
    destruct (body s) as [s' o]; cbn in *; subst o; cbn.
  - split; [reflexivity|assumption].
  - split; [reflexivity|].
    exists (error_envelope (exn_str e)). split; [reflexivity|].
    rewrite json_responses_app, Hjs. reflexivity.
Qed.

(** Something quiet that always returns, then a route. *)
Lemma responds_after {A} (m : M P A) (k : M P unit) :
  quiet m -> (forall s, exists a, snd (m s) = Ret a) -> responds k ->
  responds (m ;; k).
Proof.
  intros Hm Hret Hk s. unfold bind.
  destruct (Hm s) as [Hpage _]. destruct (Hret s) as [a Ha].
  destruct (m s) as [s' o]; cbn in *; subst o.
  destruct (Hk s') as [Hhalt (v & Hv & Hjs)].
  split; [assumption|]. exists v. split; [assumption|congruence].
Qed.

End Envelopes.

Section Routes.
Context {P : platform}.
Variable db : SupabaseClient.

Local Hint Resolve emits_st_json error_envelope_is_envelope : quiet.

Lemma route_tasks_responds : responds (P := P) (route_tasks db).
Proof.
  apply responds_try, replies_bind; [auto with quiet|].
  intros tasks. apply replies_stop, emits_st_json. reflexivity.
Qed.

Lemma route_task_responds query_params : responds (P := P) (route_task db query_params).
Proof.
  apply responds_try. cbn zeta. apply replies_stop, emits_if.
  - apply emits_bind; [auto with quiet|]. intros n.
    apply emits_bind; [auto with quiet|]. intros task.
    apply emits_st_json. reflexivity.
  - apply emits_st_json. reflexivity.
Qed.

Lemma route_create_task_responds query_params :
  responds (P := P) (route_create_task db query_params).
Proof.
  apply responds_try. cbn zeta. apply replies_stop, emits_if.
  - apply emits_bind; [auto with quiet|]. intros task.
    apply emits_st_json. reflexivity.
  - apply emits_st_json. reflexivity.
Qed.

Lemma route_update_task_responds query_params :
  responds (P := P) (route_update_task db query_params).
Proof.
  apply responds_try. cbn zeta. apply replies_stop, emits_if.
  - apply emits_bind; [auto with quiet|]. intros n.
    apply emits_bind; [auto with quiet|]. intros task.
    apply emits_st_json. reflexivity.
  - apply emits_st_json. reflexivity.
Qed.

Lemma route_delete_task_responds query_params :
  responds (P := P) (route_delete_task db query_params).
Proof.
  apply responds_try. cbn zeta. apply replies_stop, emits_if.
  - apply emits_bind; [auto with quiet|]. intros n.
    apply emits_bind; [auto with quiet|]. intros [|];
      apply emits_st_json; reflexivity.
  - apply emits_st_json. reflexivity.
Qed.

Lemma route_health_responds : responds (P := P) route_health.
Proof.
  intros s. cbn. split; [reflexivity|].
  eexists. split; [|now rewrite json_responses_app]. reflexivity.
Qed.

Lemma set_cors_headers_returns (s : state P) :
  exists a, snd (set_cors_headers s) = Ret a.
Proof. cbn. eauto. Qed.

(** Each of the six operations answers with exactly one envelope, of
    status [success] or [error], and stops the script there, whatever
    the parameters and whatever the remote does. *)
Lemma known_operation_responds (ui : M P unit) query_params api_endpoint rest :
  query_params !! "api" = Some (api_endpoint, rest) ->
  known_operation api_endpoint = true ->
  responds (script db ui query_params).
Proof.
  intros Hapi Hknown. unfold script. rewrite Hapi. cbn [fst].
  unfold api_block.
  apply responds_after;
    [apply quiet_st_markdown|apply set_cors_headers_returns|].
  unfold known_operation in Hknown. cbn in Hknown.
  destruct (String.eqb api_endpoint "tasks"); [apply route_tasks_responds|].
  destruct (String.eqb api_endpoint "task"); [apply route_task_responds|].
  destruct (String.eqb api_endpoint "create_task"); [apply route_create_task_responds|].
  destruct (String.eqb api_endpoint "update_task"); [apply route_update_task_responds|].
  destruct (String.eqb api_endpoint "delete_task"); [apply route_delete_task_responds|].
  destruct (String.eqb api_endpoint "health"); [apply route_health_responds|].
  discriminate.
Qed.

(** With the selector present the page of the interface is never
    rendered: the run does not depend on it. *)
Lemma dispatch_ignores_ui (ui1 ui2 : M P unit) query_params :
  is_Some (query_params !! "api") ->
  script db ui1 query_params = script db ui2 query_params.
Proof. intros [values H]. unfold script. now rewrite H. Qed.

End Routes.

(** C3 at the input where it fails.  With a selector outside the six
    operation names the script only writes the CORS markup and runs to its
    end: nothing is handed to [st.json], so no envelope is emitted, though
    the page of the interface is not rendered either. *)
Theorem unknown_operation_emits_no_envelope {P : platform} (db : SupabaseClient)
    (ui : M P unit) (query_params : gmap string (string * list string))
    (api_endpoint : string) (rest : list string) (s : state P) :
  query_params !! "api" = Some (api_endpoint, rest) ->
  known_operation api_endpoint = false ->
  script db ui query_params s
  = (State (world s) (page s ++ [Markdown cors_script true]) (sent s), Ret tt)
  /\ json_responses (page (fst (script db ui query_params s)))
     = json_responses (page s).
Proof.
  intros Hapi Hknown.
  assert (script db ui query_params s
          = (State (world s) (page s ++ [Markdown cors_script true]) (sent s),
             Ret tt)) as Hrun.
  { unfold script. rewrite Hapi. cbn [fst]. unfold api_block.
    unfold known_operation in Hknown. cbn in Hknown.
    repeat (apply orb_false_elim in Hknown; destruct Hknown as [? Hknown]).
    unfold bind. cbn.
    repeat match goal with H : String.eqb _ _ = false |- _ => rewrite H; clear H end.
    reflexivity. }
  split; [exact Hrun|]. rewrite Hrun. cbn.
  rewrite json_responses_app. cbn. apply app_nil_r.
Qed.

(** [?api=foo] on an empty page. *)
Lemma unknown_operation_emits_no_envelope_witness :
  script demo_client (ret tt) {[ "api" := ("foo", []) ]} (start offline tt)
  = (State (P := offline) tt [Markdown cors_script true] [], Ret tt)
  /\ json_responses
       (page (fst (script demo_client (ret tt) {[ "api" := ("foo", []) ]}
                     (start offline tt))))
     = [].
Proof.
  apply (unknown_operation_emits_no_envelope demo_client (ret tt)
           {[ "api" := ("foo", []) ]} "foo" [] (start offline tt)).
  - reflexivity.
  - reflexivity.
Defined.

(** ** Parameters of the routes *)

#[local] Arguments first_value : simpl never.

Lemma given_false x : given x = false <-> x = None \/ x = Some EmptyString.
Proof.
  destruct x as [[|c x]|]; cbn; split; auto; try discriminate.
  intros [H|H]; discriminate.
Qed.

(** C6.  [?api=create_task] without a [title], or with an empty one,
    writes the error envelope "Title is required" and stops.  No HTTP
    call is made and the world is left as it was: [create_task] of the
    client is not run and nothing is stored. *)
Theorem create_task_requires_title {P : platform} (db : SupabaseClient)
    (ui : M P unit) (query_params : gmap string (string * list string))
    (rest : list string) (s : state P) :
  query_params !! "api" = Some ("create_task", rest) ->
  first_value query_params "title" = None
  \/ first_value query_params "title" = Some EmptyString ->
  script db ui query_params s
  = (State (world s)
       (page s ++ [Markdown cors_script true;
                   Json (error_envelope "Title is required")])
       (sent s),
     Halt)
  /\ envelope_status (error_envelope "Title is required") = Some "error".
Proof.
  intros Hapi Htitle. apply given_false in Htitle.
  split; [|reflexivity].
  unfold script. rewrite Hapi. cbn [fst]. unfold api_block. cbn.
  unfold route_create_task, try_except, bind. cbn.
  rewrite Htitle. cbn. now rewrite <- app_assoc.
Qed.

(** [?api=create_task&description=x]: no call is made. *)
Lemma create_task_requires_title_witness :
  script demo_client (ret tt)
    {[ "api" := ("create_task", []); "description" := ("x", []) ]}
    (start (answering 201 (VList sample_tasks)) tt)
  = (State (P := answering 201 (VList sample_tasks)) tt
       [Markdown cors_script true; Json (error_envelope "Title is required")]
       [],
     Halt)
  /\ envelope_status (error_envelope "Title is required") = Some "error".
Proof.
  apply (create_task_requires_title demo_client (ret tt)
           {[ "api" := ("create_task", []); "description" := ("x", []) ]} []
           (start (answering 201 (VList sample_tasks)) tt)).
  - reflexivity.
  - left. reflexivity.
Defined.

(** C9.  On the routes [task], [update_task] and [delete_task], an [id]
    that [int] rejects never crashes the request and no HTTP call is
    made: the run writes one error envelope and stops.  When the
    conversion is attempted (the [id] is not empty and, for
    [update_task], a [title] is given) the message of the envelope is the
    text of the conversion error. *)
Theorem malformed_id_reported {P : platform} (db : SupabaseClient)
    (ui : M P unit) (query_params : gmap string (string * list string))
    (api_endpoint : string) (rest : list string) (s : state P) :
  query_params !! "api" = Some (api_endpoint, rest) ->
  api_endpoint = "task" \/ api_endpoint = "update_task"
  \/ api_endpoint = "delete_task" ->
  (forall id, first_value query_params "id" = Some id ->
              exists e, int_of_str P id = inl e) ->
  exists message,
    script db ui query_params s
    = (State (world s)
         (page s ++ [Markdown cors_script true; Json (error_envelope message)])
         (sent s),
       Halt)
    /\ (forall id e,
          first_value query_params "id" = Some id ->
          int_of_str P id = inl e ->
          given (Some id) = true ->
          (api_endpoint = "update_task" ->
           given (first_value query_params "title") = true) ->
          message = exn_str e).
Proof.
  intros Hapi Hop Hbad.
  unfold script. rewrite Hapi. cbn [fst]. unfold api_block.
  destruct Hop as [->|[->| ->]]; cbn.
  - unfold route_task, try_except, bind. cbn.
    destruct (first_value query_params "id") as [id|] eqn:Hid;
      [destruct (given (Some id)) eqn:Hgiven|]; cbn.
    + destruct (Hbad id eq_refl) as [e He].
      change (of_option_str (Some id)) with id. rewrite He. cbn.
      exists (exn_str e). rewrite <- app_assoc. split; [reflexivity|].
      intros id' e' [= <-] He' _ _. congruence.
    + exists "Task ID required". rewrite <- app_assoc. split; [reflexivity|].
      intros id' e' [= <-] _ Hg. cbn in Hgiven. congruence.
    + exists "Task ID required". rewrite <- app_assoc. split; [reflexivity|].
      intros id' e' [=].
  - unfold route_update_task, try_except, bind. cbn.
    destruct (first_value query_params "id") as [id|] eqn:Hid;
      [destruct (given (Some id)) eqn:Hgiven|]; cbn.
    + destruct (given (first_value query_params "title")) eqn:Htitle; cbn.
      * destruct (Hbad id eq_refl) as [e He].
        change (of_option_str (Some id)) with id. rewrite He. cbn.
        exists (exn_str e). rewrite <- app_assoc. split; [reflexivity|].
        intros id' e' [= <-] He' _ _. congruence.
      * exists "Task ID and title are required". rewrite <- app_assoc.
        split; [reflexivity|].
        intros id' e' _ _ _ Ht. specialize (Ht eq_refl). discriminate.
    + exists "Task ID and title are required". rewrite <- app_assoc.
      split; [reflexivity|].
      intros id' e' [= <-] _ Hg. cbn in Hgiven. congruence.
    + exists "Task ID and title are required". rewrite <- app_assoc.
      split; [reflexivity|].
      intros id' e' [=].
  - unfold route_delete_task, try_except, bind. cbn.
    destruct (first_value query_params "id") as [id|] eqn:Hid;
      [destruct (given (Some id)) eqn:Hgiven|]; cbn.
    + destruct (Hbad id eq_refl) as [e He].
      change (of_option_str (Some id)) with id. rewrite He. cbn.
      exists (exn_str e). rewrite <- app_assoc. split; [reflexivity|].
      intros id' e' [= <-] He' _ _. congruence.
    + exists "Task ID required". rewrite <- app_assoc. split; [reflexivity|].
      intros id' e' [= <-] _ Hg. cbn in Hgiven. congruence.
    + exists "Task ID required". rewrite <- app_assoc. split; [reflexivity|].
      intros id' e' [=].
Qed.

(** [?api=delete_task&id=abc]: the text of the [ValueError] comes back in
    the envelope and no call is made. *)
Lemma malformed_id_reported_witness :
  script demo_client (ret tt)
    {[ "api" := ("delete_task", []); "id" := ("abc", []) ]}
    (start (answering 200 (VList sample_tasks)) tt)
  = (State (P := answering 200 (VList sample_tasks)) tt
       [Markdown cors_script true;
        Json (error_envelope "invalid literal for int() with base 10: 'abc'")]
       [],
     Halt).
Proof.
  destruct (malformed_id_reported demo_client (ret tt)
              {[ "api" := ("delete_task", []); "id" := ("abc", []) ]}
              "delete_task" []
              (start (answering 200 (VList sample_tasks)) tt))
    as (message & Hrun & Hmessage).
  - reflexivity.
  - right. right. reflexivity.
  - intros id [= <-]. eexists. reflexivity.
  - rewrite (Hmessage "abc"
               (Exn ValueError "invalid literal for int() with base 10: 'abc'"))
      in Hrun.
    + exact Hrun.
    + reflexivity.
    + reflexivity.
    + reflexivity.
    + discriminate.
Defined.

Ltac all_ascii c :=
  destruct c as [[] [] [] [] [] [] [] []]; vm_compute;
  (split; [intros H; try discriminate H; auto
          |intros [H|H]; try discriminate H; reflexivity]).

Lemma lower_is_t c : Py.lower_ascii c = "t"%char <-> c = "t"%char \/ c = "T"%char.
Proof. all_ascii c. Qed.
Lemma lower_is_r c : Py.lower_ascii c = "r"%char <-> c = "r"%char \/ c = "R"%char.
Proof. all_ascii c. Qed.
Lemma lower_is_u c : Py.lower_ascii c = "u"%char <-> c = "u"%char \/ c = "U"%char.
Proof. all_ascii c. Qed.
Lemma lower_is_e c : Py.lower_ascii c = "e"%char <-> c = "e"%char \/ c = "E"%char.
Proof. all_ascii c. Qed.

(** [s.lower() == 'true'] holds for the sixteen spellings of "true" in
    upper and lower case, and for nothing else. *)
Lemma lower_is_true s :
  Py.lower s = "true"
  <-> exists c1 c2 c3 c4,
        s = String c1 (String c2 (String c3 (String c4 EmptyString)))
        /\ (c1 = "t" \/ c1 = "T")%char /\ (c2 = "r" \/ c2 = "R")%char
        /\ (c3 = "u" \/ c3 = "U")%char /\ (c4 = "e" \/ c4 = "E")%char.
Proof.
  split.
  - destruct s as [|c1 [|c2 [|c3 [|c4 [|c5 s]]]]]; cbn; try discriminate.
    intros [= H1 H2 H3 H4]. exists c1, c2, c3, c4.
    split; [reflexivity|].
    now rewrite <- lower_is_t, <- lower_is_r, <- lower_is_u, <- lower_is_e.
  - intros (c1 & c2 & c3 & c4 & -> & H1 & H2 & H3 & H4). cbn.
    apply lower_is_t in H1. apply lower_is_r in H2.
    apply lower_is_u in H3. apply lower_is_e in H4. congruence.
Qed.

Section UpdateRoute.
Context {P : platform}.
Variable db : SupabaseClient.

(** Whatever comes back, [update_task] has made exactly one call, its
    PATCH. *)
Lemma update_task_sent task_id title description completed (s : state P) :
  sent (fst (update_task db task_id title description completed s))
  = (sent s ++ [request_of db PATCH (id_endpoint task_id)
                  (Some (task_payload title description completed)) false])%list.
Proof.
  destruct (call_cases s (request_of db PATCH (id_endpoint task_id)
              (Some (task_payload title description completed)) false))
    as [[e H]|[r H]]; unfold update_task.
  - rewrite (call_fails db PATCH (id_endpoint task_id) _ _ _ s e H). reflexivity.
  - rewrite (call_returns db PATCH (id_endpoint task_id) _ _ _ s r H). run.
    destruct (body r) as [v|]; cbn; [|reflexivity].
    destruct (Py.is_list v); cbn; [|reflexivity].
    destruct (Py.item0 v); reflexivity.
Qed.

Lemma route_update_task_sends (ui : M P unit) query_params rest id n title
    (s : state P) :
  query_params !! "api" = Some ("update_task", rest) ->
  first_value query_params "id" = Some id -> given (Some id) = true ->
  int_of_str P id = inr n ->
  first_value query_params "title" = Some title -> given (Some title) = true ->
  sent (fst (script db ui query_params s))
  = (sent s ++ [request_of db PATCH (id_endpoint n)
                  (Some (task_payload title
                           (default EmptyString
                              (first_value query_params "description"))
                           (completed_param query_params))) false])%list.
Proof.
  intros Hapi Hid Hgid Hint Htitle Hgtitle.
  unfold script. rewrite Hapi. cbn [fst]. unfold api_block. cbn.
  unfold route_update_task, try_except, bind. cbn.
  rewrite Hid, Htitle, Hgid, Hgtitle. cbn.
  change (of_option_str (Some id)) with id. rewrite Hint. cbn.
  change (of_option_str (Some title)) with title.
  match goal with
  | |- context [update_task db n title ?d ?c ?s1] =>
      pose proof (update_task_sent n title d c s1) as Hw;
      destruct (update_task db n title d c s1) as [s2 [task|e|]]
  end; cbn in *; exact Hw.
Qed.

End UpdateRoute.

(** C10.  The [completed] parameter of [update_task] counts as true
    exactly when it is one of the spellings of "true" in upper and lower
    case; any other value, and no value, counts as false.  That boolean is
    the [completed] of the record in the one call the route makes, the
    PATCH of [update_task]. *)
Theorem completed_only_when_true
    (query_params : gmap string (string * list string)) :
  (completed_param query_params = true
   <-> exists c1 c2 c3 c4,
         first_value query_params "completed"
         = Some (String c1 (String c2 (String c3 (String c4 EmptyString))))
         /\ (c1 = "t" \/ c1 = "T")%char /\ (c2 = "r" \/ c2 = "R")%char
         /\ (c3 = "u" \/ c3 = "U")%char /\ (c4 = "e" \/ c4 = "E")%char)
  /\ (first_value query_params "completed" = None ->
      completed_param query_params = false)
  /\ (forall (P : platform) (db : SupabaseClient) (ui : M P unit) rest id n title
        (s : state P),
        query_params !! "api" = Some ("update_task", rest) ->
        first_value query_params "id" = Some id -> given (Some id) = true ->
        int_of_str P id = inr n ->
        first_value query_params "title" = Some title -> given (Some title) = true ->
        sent (fst (script db ui query_params s))
        = (sent s ++ [request_of db PATCH (id_endpoint n)
                        (Some (task_payload title
                                 (default EmptyString
                                    (first_value query_params "description"))
                                 (completed_param query_params))) false])%list).
Proof.
  split; [|split].
  - unfold completed_param. rewrite String.eqb_eq.
    destruct (first_value query_params "completed") as [v|].
    + change (default "false" (Some v)) with v. rewrite lower_is_true. split.
      * intros (c1 & c2 & c3 & c4 & -> & H). exists c1, c2, c3, c4. auto.
      * intros (c1 & c2 & c3 & c4 & [= ->] & H). exists c1, c2, c3, c4. auto.
    + change (default "false" None) with "false".
      split; [discriminate|]. intros (c1 & c2 & c3 & c4 & [=] & _).
  - intros H. unfold completed_param. rewrite H. reflexivity.
  - intros P db ui rest id n title s. apply route_update_task_sends.
Qed.

(** [?api=update_task&id=5&title=milk&completed=TRUE]: the PATCH that
    reaches the remote carries [completed: true]. *)
Lemma completed_only_when_true_witness :
  let query_params : gmap string (string * list string) :=
    {[ "api" := ("update_task", []); "id" := ("5", []);
       "title" := ("milk", []); "completed" := ("TRUE", []) ]} in
  completed_param query_params = true
  /\ sent (fst (script demo_client (ret tt) query_params (start offline tt)))
     = [request_of demo_client PATCH "tasks?id=eq.5"
          (Some (task_payload "milk" EmptyString true)) false].
Proof.
  intros query_params.
  destruct (completed_only_when_true query_params) as (Hiff & _ & Hsend).
  split.
  - apply Hiff. exists "T"%char, "R"%char, "U"%char, "E"%char.
    split; [reflexivity|]. auto.
  - exact (Hsend offline demo_client (ret tt) [] "5" 5 "milk" (start offline tt)
             eq_refl eq_refl eq_refl eq_refl eq_refl eq_refl).
Defined.

(** Values that are not a spelling of "true". *)
Example completed_other_values :
  map (fun v => completed_param {[ "completed" := (v, []) ]})
      ["true"; "True"; "TRUE"; "tRuE"; "1"; "yes"; "True "; "false"; "on"]
  = [true; true; true; true; false; false; false; false; false]
  /\ completed_param ∅ = false.
Proof. split; reflexivity. Qed.

(** ** Searching *)

#[local] Arguments String.append !_ _ / : simpl nomatch.

Section Strings.

Lemma append_assoc (a b c : string) : (a +:+ b) +:+ c = a +:+ (b +:+ c).
Proof. induction a as [|x a IH]; simpl; [reflexivity|now rewrite IH]. Qed.

Lemma lower_append a b : Py.lower (a +:+ b) = Py.lower a +:+ Py.lower b.
Proof. induction a as [|x a IH]; simpl; [reflexivity|now rewrite IH]. Qed.

Lemma all_chars_append f a b :
  all_chars f (a +:+ b) = all_chars f a && all_chars f b.
Proof.
  induction a as [|x a IH]; simpl; [reflexivity|].
  now rewrite IH, andb_assoc.
Qed.

Lemma all_chars_impl (f g : ascii -> bool) s :
  (forall c, f c = true -> g c = true) ->
  all_chars f s = true -> all_chars g s = true.
Proof.
  intros Hfg. induction s as [|x s IH]; cbn; [reflexivity|].
  intros [Hx Hs]%andb_prop. now rewrite (Hfg x Hx), (IH Hs).
Qed.

Lemma all_chars_lower (f : ascii -> bool) s :
  all_chars (fun c => f (Py.lower_ascii c)) s = all_chars f (Py.lower s).
Proof. induction s as [|x s IH]; cbn; [reflexivity|now rewrite IH]. Qed.

Lemma strip_prefix_append p s : Remote.strip_prefix p (p +:+ s) = Some s.
Proof.
  induction p as [|c p IH]; cbn; [reflexivity|].
  now rewrite Ascii.eqb_refl.
Qed.

(** A string without [c], then [c]: the first [c] is that one. *)
Lemma break_at_append c a b :
  all_chars (fun d => negb (Ascii.eqb c d)) a = true ->
  Remote.break_at c (a +:+ String c b) = Some (a, b).
Proof.
  induction a as [|x a IH]; cbn.
  - intros _. now rewrite Ascii.eqb_refl.
  - intros [Hx Ha]%andb_prop. apply negb_true_iff in Hx.
    now rewrite Hx, (IH Ha).
Qed.

Lemma starts_with_spec q s :
  starts_with q s = true <-> exists post, s = q +:+ post.
Proof.
  revert s. induction q as [|c q IH]; intros s; cbn.
  - split; eauto.
  - destruct s as [|d s]; cbn.
    + split; [discriminate|intros [post [=]]].
    + rewrite andb_true_iff, Ascii.eqb_eq, IH. split.
      * intros [-> [post ->]]. eauto.
      * intros [post [= -> ->]]. eauto.
Qed.

(** [contains] is the substring relation. *)
Lemma contains_spec q s :
  contains q s = true <-> exists pre post, s = pre +:+ q +:+ post.
Proof.
  induction s as [|d s IH]; cbn; rewrite orb_true_iff, starts_with_spec.
  - split.
    + intros [[post H]|[=]]. exists EmptyString, post. exact H.
    + intros (pre & post & H). left.
      destruct pre; [eauto|discriminate].
  - rewrite IH. split.
    + intros [[post H]|(pre & post & ->)].
      * exists EmptyString, post. exact H.
      * exists (String d pre), post. reflexivity.
    + intros ([|x pre] & post & H); cbn in H.
      * left. eauto.
      * injection H as -> ->. right. eauto.
Qed.

End Strings.

Section Patterns.

Lemma like_star p s :
  Remote.like (String "*" p) s
  = Remote.like p s
    || match s with
       | EmptyString => false
       | String _ s' => Remote.like (String "*" p) s'
       end.
Proof. destruct s; reflexivity. Qed.

Lemma like_any s : Remote.like "*" s = true.
Proof.
  induction s as [|d s IH]; [reflexivity|].
  rewrite like_star, IH. apply orb_true_r.
Qed.

(** A pattern without [*], then [*]: the string starts with it. *)
Lemma like_prefix q s :
  star_free q = true -> Remote.like (q +:+ "*") s = starts_with q s.
Proof.
  revert s. induction q as [|c q IH]; intros s.
  - intros _. apply like_any.
  - cbn. intros [Hc Hq]%andb_prop. apply negb_true_iff in Hc. rewrite Hc.
    destruct s as [|d s]; [reflexivity|]. now rewrite (IH s Hq).
Qed.

(** [*q*] for [q] without [*]: the string contains [q]. *)
Lemma like_contains q s :
  star_free q = true -> Remote.like ("*" +:+ q +:+ "*") s = contains q s.
Proof.
  intros Hq. change ("*" +:+ q +:+ "*") with (String "*" (q +:+ "*")).
  induction s as [|d s IH]; rewrite like_star, (like_prefix q _ Hq).
  - reflexivity.
  - rewrite IH. reflexivity.
Qed.

End Patterns.

Ltac each_ascii c := destruct c as [[] [] [] [] [] [] [] []]; vm_compute; auto.

Lemma alphanumeric_no_comma c :
  alphanumeric c = true -> negb (Ascii.eqb "," c) = true.
Proof. each_ascii c. Qed.

Lemma alphanumeric_no_paren c :
  alphanumeric c = true -> negb (Ascii.eqb ")" c) = true.
Proof. each_ascii c. Qed.

Lemma alphanumeric_lower_no_star c :
  alphanumeric c = true -> negb (Ascii.eqb (Py.lower_ascii c) "*") = true.
Proof. each_ascii c. Qed.

Lemma plain_lower_star_free q : plain q = true -> star_free (Py.lower q) = true.
Proof.
  intros H. unfold star_free. rewrite <- all_chars_lower.
  exact (all_chars_impl _ _ q alphanumeric_lower_no_star H).
Qed.

(** Around a plain query, [*q*] selects the strings that contain it. *)
Lemma ilike_contains q s :
  plain q = true ->
  Remote.ilike ("*" +:+ q +:+ "*") s = contains (Py.lower q) (Py.lower s).
Proof.
  intros H. unfold Remote.ilike. rewrite !lower_append.
  change (Py.lower "*") with "*".
  apply like_contains, plain_lower_star_free, H.
Qed.

Lemma hit_mentions q r :
  plain q = true ->
  Remote.hit ("*" +:+ q +:+ "*") ("*" +:+ q +:+ "*") r = mentions q r.
Proof.
  intros H. unfold Remote.hit, mentions. rewrite (ilike_contains q _ H).
  destruct (Remote.description r) as [d|]; [|reflexivity].
  now rewrite (ilike_contains q d H).
Qed.

(** The endpoint of a search, cut where the service cuts it. *)
Lemma search_endpoint_parts q :
  search_endpoint q
  = "tasks?or=(title.ilike."
    +:+ (("*" +:+ q +:+ "*")
         +:+ String "," ("description.ilike."
                         +:+ (("*" +:+ q +:+ "*")
                              +:+ String ")" "&order=created_at.desc"))).
Proof. unfold search_endpoint. rewrite !append_assoc. reflexivity. Qed.

Lemma parse_endpoint_search a :
  Remote.parse_endpoint ("tasks?or=(title.ilike." +:+ a) = Remote.parse_search a.
Proof. reflexivity. Qed.

Lemma parse_search_parts p1 p2 :
  all_chars (fun d => negb (Ascii.eqb "," d)) p1 = true ->
  all_chars (fun d => negb (Ascii.eqb ")" d)) p2 = true ->
  Remote.parse_search
    (p1 +:+ String "," ("description.ilike."
                        +:+ (p2 +:+ String ")" "&order=created_at.desc")))
  = Some (Remote.Search p1 p2).
Proof.
  intros H1 H2. unfold Remote.parse_search.
  rewrite (break_at_append "," p1 _ H1), strip_prefix_append.
  rewrite (break_at_append ")" p2 _ H2). reflexivity.
Qed.

(** The service reads the endpoint of a plain query as the search for
    [*q*] in both columns. *)
Lemma parse_search_endpoint q :
  plain q = true ->
  Remote.parse_endpoint (search_endpoint q)
  = Some (Remote.Search ("*" +:+ q +:+ "*") ("*" +:+ q +:+ "*")).
Proof.
  intros H.
  rewrite search_endpoint_parts, parse_endpoint_search.
  apply parse_search_parts; rewrite !all_chars_append.
  - now rewrite (all_chars_impl _ _ q alphanumeric_no_comma H).
  - now rewrite (all_chars_impl _ _ q alphanumeric_no_paren H).
Qed.

(** The answer of the service to the search for a plain query. *)
Lemma serve_search (self : SupabaseClient) (d : Remote.db) q :
  plain q = true ->
  Remote.serve (url self) (request_of self GET (search_endpoint q) None false) d
  = (d, Remote.ok 200 (url self +:+ "/rest/v1/" +:+ search_endpoint q)
          (Remote.newest_first (List.filter (mentions q) (Remote.rows d)))).
Proof.
  intros H. unfold Remote.serve, request_of. cbn [rq_url rq_verb].
  rewrite <- append_assoc, strip_prefix_append, (parse_search_endpoint q H).
  cbn [Remote.select]. rewrite append_assoc.
  now rewrite (filter_ext _ _ (fun r => hit_mentions q r H)).
Qed.

Lemma newest_first_sorted l : StronglySorted newer_or_same (Remote.newest_first l).
Proof.
  assert (RelationClasses.Transitive (fun a b => is_true (Remote.Newest.leb a b)))
    as Htrans.
  { intros a b c. unfold is_true, Remote.Newest.leb. rewrite !Z.leb_le. lia. }
  pose proof (Remote.NewestFirst.StronglySorted_sort l Htrans) as Hs.
  unfold Remote.newest_first.
  induction Hs as [|a rest Hrest IH Hall]; constructor; [assumption|].
  eapply List.Forall_impl; [|exact Hall].
  intros b. unfold is_true, Remote.Newest.leb, newer_or_same. now rewrite Z.leb_le.
Qed.

Lemma newest_first_permutation l : Permutation (Remote.newest_first l) l.
Proof. symmetry. apply Remote.NewestFirst.Permuted_sort. Qed.

(** C4, as the code has it.  [search_tasks] splices the query as it is
    written into [search_endpoint], between the two [*] of each [ilike]
    pattern, returns the decoded answer unchanged, and returns the empty
    list when the call fails.  Against the table service, and for a query made of
    ASCII letters and digits only, the answer holds exactly the stored
    tasks whose title or description contains the query, letter case
    ignored, newest [created_at] first. *)
Theorem search_tasks_spec :
  (forall (P : platform) (self : SupabaseClient) (s : state P) query e,
      fails_with s (request_of self GET (search_endpoint query) None false) e ->
      snd (search_tasks self query s) = Ret (VList []))
  /\ (forall (P : platform) (self : SupabaseClient) (s : state P) query v,
      answers s (request_of self GET (search_endpoint query) None false) v ->
      snd (search_tasks self query s) = Ret v)
  /\ (forall (self : SupabaseClient) (d : Remote.db) (shown : list element)
        (calls : list http_request) query,
      plain query = true ->
      exists found,
        snd (search_tasks self query
               (State (P := Remote.platform (url self)) d shown calls))
        = Ret (VList (map Remote.to_json found))
        /\ Permutation found (List.filter (mentions query) (Remote.rows d))
        /\ StronglySorted newer_or_same found).
Proof.
  split; [|split].
  - intros P self s query e H. apply (search_tasks_fails self s query e H).
  - intros P self s query v H. now rewrite (search_tasks_answers self s query v H).
  - intros self d shown calls query Hplain.
    exists (Remote.newest_first (List.filter (mentions query) (Remote.rows d))).
    split; [|split].
    + rewrite (search_tasks_answers self _ query
                 (VList (map Remote.to_json
                           (Remote.newest_first
                              (List.filter (mentions query) (Remote.rows d)))))).
      * reflexivity.
      * unfold answers. cbn [world send Remote.platform].
        rewrite (serve_search self d query Hplain). cbn [snd].
        eexists. split; reflexivity.
    + apply newest_first_permutation.
    + apply newest_first_sorted.
Qed.

(** A remote that is down, and the search for "fir" in the small table:
    "Campfire" and "First steps" are found, the newer one first. *)
Lemma search_tasks_spec_witness :
  snd (search_tasks demo_client "fir" (start offline tt)) = Ret (VList [])
  /\ exists found,
       snd (search_tasks demo_client "fir"
              (State (P := Remote.platform (url demo_client)) sample_db [] []))
       = Ret (VList (map Remote.to_json found))
       /\ Permutation found (List.filter (mentions "fir") (Remote.rows sample_db))
       /\ StronglySorted newer_or_same found.
Proof.
  destruct search_tasks_spec as (Hfail & _ & Hplain).
  split.
  - exact (Hfail offline demo_client (start offline tt) "fir"
             (Exn RequestException "Connection refused") eq_refl).
  - exact (Hplain demo_client sample_db [] [] "fir" eq_refl).
Defined.

Example search_fir :
  snd (search_tasks demo_client "fir"
         (State (P := Remote.platform (url demo_client)) sample_db [] []))
  = Ret (VList (map Remote.to_json
                  [Remote.Row 3 "Campfire" (Some "bring wood") (Some true) 30 30;
                   Remote.Row 1 "First steps" (Some "read the manual") (Some false) 10 10])).
Proof. vm_compute. reflexivity. Qed.

(** C4, as stated, fails for a query with [*] in it: the search for
    "a*b" answers the task titled "axb", which does not contain "a*b". *)
Lemma search_star_is_a_wildcard :
  let r := Remote.Row 2 "axb" None (Some false) 20 20 in
  snd (search_tasks demo_client "a*b"
         (State (P := Remote.platform (url demo_client)) sample_db [] []))
  = Ret (VList [Remote.to_json r])
  /\ mentions "a*b" r = false
  /\ List.filter (mentions "a*b") (Remote.rows sample_db) = [].
Proof. vm_compute. repeat split. Qed.

(** The scenario of the specification on the table service: create A,
    create B, list; complete B, take the statistics; delete A, list. *)
Example end_to_end :
  let run :=
    (_ <- create_task demo_client "A" "first" ;;
     _ <- create_task demo_client "B" "second" ;;
     listed <- get_all_tasks demo_client ;;
     _ <- update_task demo_client 2 "B" "second" true ;;
     stats <- get_task_stats demo_client ;;
     _ <- delete_task demo_client 1 ;;
     left <- get_all_tasks demo_client ;;
     ret (listed, stats, left))%py in
  snd (run (State (P := Remote.platform (url demo_client)) Remote.empty [] []))
  = Ret (VList (map Remote.to_json
                  [Remote.Row 2 "B" (Some "second") (Some false) 1 1;
                   Remote.Row 1 "A" (Some "first") (Some false) 0 0]),
         stats_record 2 1 1 (VFloat 50%float),
         VList (map Remote.to_json
                  [Remote.Row 2 "B" (Some "second") (Some true) 1 1])).
Proof. vm_compute. reflexivity. Qed.

(** ** More on the client *)

Section ClientCalls.
Context {P : platform}.
Variable self : SupabaseClient.

Lemma get_all_tasks_sent (s : state P) :
  sent (fst (get_all_tasks self s))
  = (sent s ++ [request_of self GET list_endpoint None false])%list.
Proof.
  destruct (call_cases s (request_of self GET list_endpoint None false))
    as [[e H]|[r H]]; unfold get_all_tasks.
  - rewrite (call_fails self GET list_endpoint None _ _ s e H). reflexivity.
  - rewrite (call_returns self GET list_endpoint None _ _ s r H). run.
    destruct (body r); reflexivity.
Qed.

Lemma get_task_sent task_id (s : state P) :
  sent (fst (get_task self task_id s))
  = (sent s ++ [request_of self GET (id_endpoint task_id) None false])%list.
Proof.
  destruct (call_cases s (request_of self GET (id_endpoint task_id) None false))
    as [[e H]|[r H]]; unfold get_task.
  - rewrite (call_fails self GET (id_endpoint task_id) None _ _ s e H). reflexivity.
  - rewrite (call_returns self GET (id_endpoint task_id) None _ _ s r H). run.
    destruct (body r) as [v|]; cbn; [|reflexivity].
    destruct (Py.truthy v); cbn; [|reflexivity].
    destruct (Py.item0 v); reflexivity.
Qed.

Lemma create_task_sent title description (s : state P) :
  sent (fst (create_task self title description s))
  = (sent s ++ [request_of self POST "tasks"
                  (Some (task_payload title description false)) false])%list.
Proof.
  destruct (call_cases s (request_of self POST "tasks"
              (Some (task_payload title description false)) false))
    as [[e H]|[r H]]; unfold create_task.
  - rewrite (call_fails self POST "tasks" _ _ _ s e H). reflexivity.
  - rewrite (call_returns self POST "tasks" _ _ _ s r H). run.
    destruct (body r) as [v|]; cbn; [|reflexivity].
    destruct (Py.is_list v); cbn; [|reflexivity].
    destruct (Py.item0 v); reflexivity.
Qed.

Lemma delete_task_sent task_id (s : state P) :
  sent (fst (delete_task self task_id s))
  = (sent s ++ [request_of self DELETE (id_endpoint task_id) None false])%list.
Proof.
  destruct (call_cases s (request_of self DELETE (id_endpoint task_id) None false))
    as [[e H]|[r H]]; unfold delete_task.
  - rewrite (call_fails self DELETE (id_endpoint task_id) None _ _ s e H). reflexivity.
  - rewrite (call_returns self DELETE (id_endpoint task_id) None _ _ s r H).
    reflexivity.
Qed.

Lemma search_tasks_sent query (s : state P) :
  sent (fst (search_tasks self query s))
  = (sent s ++ [request_of self GET (search_endpoint query) None false])%list.
Proof.
  destruct (call_cases s (request_of self GET (search_endpoint query) None false))
    as [[e H]|[r H]]; unfold search_tasks.
  - rewrite (call_fails self GET (search_endpoint query) None _ _ s e H). reflexivity.
  - rewrite (call_returns self GET (search_endpoint query) None _ _ s r H). run.
    destruct (body r); reflexivity.
Qed.

Lemma test_connection_sent (s : state P) :
  sent (fst (test_connection self s))
  = (sent s ++ [request_of self GET "tasks?limit=1" None false])%list.
Proof.
  destruct (call_cases s (request_of self GET "tasks?limit=1" None false))
    as [[e H]|[r H]]; unfold test_connection.
  - rewrite (call_fails self GET "tasks?limit=1" None _ _ s e H). reflexivity.
  - rewrite (call_returns self GET "tasks?limit=1" None _ _ s r H). reflexivity.
Qed.

Lemma get_task_stats_sent (s : state P) :
  sent (fst (get_task_stats self s))
  = (sent s ++ [request_of self GET list_endpoint None false])%list.
Proof.
  pose proof (get_all_tasks_sent s) as Hsent.
  destruct (get_all_tasks_total self s) as (s' & v & Hrun).
  rewrite Hrun in Hsent. cbn in Hsent.
  unfold get_task_stats, try_except, bind. rewrite Hrun. cbn.
  destruct (Py.len v); cbn; [assumption|].
  destruct (Py.iter v); cbn; [assumption|].
  destruct (comprehension is_completed l); cbn; assumption.
Qed.

End ClientCalls.

(** X1.  A method other than GET, POST, PATCH and DELETE (the names are
    compared as written, so "get" is one) makes [_make_request] raise
    [ValueError] at once: no HTTP call is made, and nothing is written on
    the page, the error not being a [RequestException]. *)
Theorem make_request_unsupported_method {P : platform} (self : SupabaseClient)
    (method endpoint : string) (data : option pyval) (use_admin : bool)
    (s : state P) :
  method <> "GET" -> method <> "POST" -> method <> "PATCH" -> method <> "DELETE" ->
  _make_request self method endpoint data use_admin s
  = (s, Raise (Exn ValueError ("Unsupported method: " +:+ method))).
Proof.
  intros Hget Hpost Hpatch Hdelete.
  apply String.eqb_neq in Hget, Hpost, Hpatch, Hdelete.
  unfold _make_request, try_except, bind.
  rewrite Hget, Hpost, Hpatch, Hdelete. reflexivity.
Qed.

Lemma make_request_unsupported_method_witness :
  _make_request demo_client "get" "tasks" None false (start offline tt)
  = (start offline tt, Raise (Exn ValueError "Unsupported method: get")).
Proof.
  apply (make_request_unsupported_method demo_client "get" "tasks" None false
           (start offline tt)); discriminate.
Defined.

(** X2.  Every operation of the client makes exactly one HTTP call,
    whatever comes back (no retry, no second request), and always with the
    standard headers: the service key is never used.  GET and DELETE
    carry no body; POST and PATCH carry the three fields of the task. *)
Theorem one_call_per_operation {P : platform} (self : SupabaseClient)
    (s : state P) (task_id : Z) (title description query : string)
    (completed : bool) :
  sent (fst (get_all_tasks self s))
  = (sent s ++ [HttpRequest GET (url self +:+ "/rest/v1/tasks?order=created_at.desc")
                  (headers self) None])%list
  /\ sent (fst (get_task self task_id s))
     = (sent s ++ [HttpRequest GET (url self +:+ "/rest/v1/tasks?id=eq."
                                    +:+ Py.str_int task_id)
                     (headers self) None])%list
  /\ sent (fst (create_task self title description s))
     = (sent s ++ [HttpRequest POST (url self +:+ "/rest/v1/tasks") (headers self)
                     (Some (task_payload title description false))])%list
  /\ sent (fst (update_task self task_id title description completed s))
     = (sent s ++ [HttpRequest PATCH (url self +:+ "/rest/v1/tasks?id=eq."
                                      +:+ Py.str_int task_id)
                     (headers self)
                     (Some (task_payload title description completed))])%list
  /\ sent (fst (delete_task self task_id s))
     = (sent s ++ [HttpRequest DELETE (url self +:+ "/rest/v1/tasks?id=eq."
                                       +:+ Py.str_int task_id)
                     (headers self) None])%list
  /\ sent (fst (search_tasks self query s))
     = (sent s ++ [HttpRequest GET (url self +:+ "/rest/v1/" +:+ search_endpoint query)
                     (headers self) None])%list
  /\ sent (fst (get_task_stats self s))
     = (sent s ++ [HttpRequest GET (url self +:+ "/rest/v1/tasks?order=created_at.desc")
                     (headers self) None])%list
  /\ sent (fst (test_connection self s))
     = (sent s ++ [HttpRequest GET (url self +:+ "/rest/v1/tasks?limit=1")
                     (headers self) None])%list.
Proof.
  split; [apply get_all_tasks_sent|].
  split; [apply get_task_sent|].
  split; [apply create_task_sent|].
  split; [apply update_task_sent|].
  split; [apply delete_task_sent|].
  split; [apply search_tasks_sent|].
  split; [apply get_task_stats_sent|].
  apply test_connection_sent.
Qed.

Section Writes.
Context {P : platform}.
Variable self : SupabaseClient.

Lemma create_task_answers title description (s : state P) v :
  answers s (request_of self POST "tasks"
               (Some (task_payload title description false)) false) v ->
  snd (create_task self title description s)
  = match first_if_list v with inr task => Ret task | inl e => Raise e end
  /\ page (fst (create_task self title description s))
     = match first_if_list v with
       | inr _ => page s
       | inl e => (page s ++ [Error ("Failed to create task: " +:+ exn_str e)])%list
       end.
Proof.
  intros (r & Hr & Hbody). unfold create_task.
  rewrite (call_returns self POST "tasks" _ _ _ s r Hr). run. rewrite Hbody. cbn.
  unfold first_if_list. destruct (Py.is_list v); cbn; [|auto].
  destruct (Py.item0 v); cbn; auto.
Qed.

Lemma update_task_answers task_id title description completed (s : state P) v :
  answers s (request_of self PATCH (id_endpoint task_id)
               (Some (task_payload title description completed)) false) v ->
  snd (update_task self task_id title description completed s)
  = match first_if_list v with inr task => Ret task | inl e => Raise e end
  /\ page (fst (update_task self task_id title description completed s))
     = match first_if_list v with
       | inr _ => page s
       | inl e => (page s ++ [Error ("Failed to update task " +:+ Py.str_int task_id
                                     +:+ ": " +:+ exn_str e)])%list
       end.
Proof.
  intros (r & Hr & Hbody). unfold update_task.
  rewrite (call_returns self PATCH (id_endpoint task_id) _ _ _ s r Hr). run.
  rewrite Hbody. cbn.
  unfold first_if_list. destruct (Py.is_list v); cbn; [|auto].
  destruct (Py.item0 v); cbn; auto.
Qed.

End Writes.

(** X3.  The operations that degrade never raise and never stop the
    script, whatever the remote does or answers: [get_all_tasks],
    [get_task], [search_tasks], [get_task_stats], [delete_task] and
    [test_connection] always return a value. *)
Theorem degrading_operations_return {P : platform} (self : SupabaseClient)
    (s : state P) (task_id : Z) (query : string) :
  (exists v, snd (get_all_tasks self s) = Ret v)
  /\ (exists v, snd (get_task self task_id s) = Ret v)
  /\ (exists v, snd (search_tasks self query s) = Ret v)
  /\ (exists v, snd (get_task_stats self s) = Ret v)
  /\ (exists b, snd (delete_task self task_id s) = Ret b)
  /\ (exists b, snd (test_connection self s) = Ret b).
Proof.
  repeat split.
  - destruct (get_all_tasks_total self s) as (s' & v & ->). eauto.
  - destruct (call_cases s (request_of self GET (id_endpoint task_id) None false))
      as [[e H]|[r H]]; unfold get_task.
    + rewrite (call_fails self GET (id_endpoint task_id) None _ _ s e H). cbn. eauto.
    + rewrite (call_returns self GET (id_endpoint task_id) None _ _ s r H). run.
      destruct (body r) as [v|]; cbn; [|eauto].
      destruct (Py.truthy v); cbn; [|eauto].
      destruct (Py.item0 v); cbn; eauto.
  - destruct (call_cases s (request_of self GET (search_endpoint query) None false))
      as [[e H]|[r H]]; unfold search_tasks.
    + rewrite (call_fails self GET (search_endpoint query) None _ _ s e H). cbn. eauto.
    + rewrite (call_returns self GET (search_endpoint query) None _ _ s r H). run.
      destruct (body r); cbn; eauto.
  - destruct (get_all_tasks_total self s) as (s' & v & Hrun).
    unfold get_task_stats, try_except, bind. rewrite Hrun. cbn.
    destruct (Py.len v); cbn; [eauto|].
    destruct (Py.iter v); cbn; [eauto|].
    destruct (comprehension is_completed l); cbn; eauto.
  - destruct (call_cases s (request_of self DELETE (id_endpoint task_id) None false))
      as [[e H]|[r H]]; unfold delete_task.
    + rewrite (call_fails self DELETE (id_endpoint task_id) None _ _ s e H). cbn. eauto.
    + rewrite (call_returns self DELETE (id_endpoint task_id) None _ _ s r H). cbn. eauto.
  - destruct (call_cases s (request_of self GET "tasks?limit=1" None false))
      as [[e H]|[r H]]; unfold test_connection.
    + rewrite (call_fails self GET "tasks?limit=1" None _ _ s e H). cbn. eauto.
    + rewrite (call_returns self GET "tasks?limit=1" None _ _ s r H). cbn. eauto.
Qed.

(** X4.  What the two writes make of the answer.  A list gives its first
    item, any other JSON value is returned as it is.  An empty list (the
    answer when no row was touched) makes the write raise [IndexError],
    after the message "list index out of range" is put on the page. *)
Theorem write_answer_shapes {P : platform} (self : SupabaseClient) (s : state P)
    (task_id : Z) (title description : string) (completed : bool) :
  let post := request_of self POST "tasks"
                (Some (task_payload title description false)) false in
  let patch := request_of self PATCH (id_endpoint task_id)
                 (Some (task_payload title description completed)) false in
  (forall task rest,
      answers s post (VList (task :: rest)) ->
      snd (create_task self title description s) = Ret task)
  /\ (forall v,
      answers s post v -> Py.is_list v = false ->
      snd (create_task self title description s) = Ret v)
  /\ (answers s post (VList []) ->
      snd (create_task self title description s)
      = Raise (Exn IndexError "list index out of range")
      /\ page (fst (create_task self title description s))
         = (page s ++ [Error "Failed to create task: list index out of range"])%list)
  /\ (forall task rest,
      answers s patch (VList (task :: rest)) ->
      snd (update_task self task_id title description completed s) = Ret task)
  /\ (forall v,
      answers s patch v -> Py.is_list v = false ->
      snd (update_task self task_id title description completed s) = Ret v)
  /\ (answers s patch (VList []) ->
      snd (update_task self task_id title description completed s)
      = Raise (Exn IndexError "list index out of range")
      /\ page (fst (update_task self task_id title description completed s))
         = (page s ++ [Error ("Failed to update task " +:+ Py.str_int task_id
                              +:+ ": list index out of range")])%list).
Proof.
  intros post patch. repeat split.
  - intros task rest H.
    now rewrite (proj1 (create_task_answers self title description s _ H)).
  - intros v H Hv.
    rewrite (proj1 (create_task_answers self title description s _ H)).
    unfold first_if_list. now rewrite Hv.
  - now rewrite (proj1 (create_task_answers self title description s _ H)).
  - now rewrite (proj2 (create_task_answers self title description s _ H)).
  - intros task rest H.
    now rewrite (proj1 (update_task_answers self task_id title description completed s _ H)).
  - intros v H Hv.
    rewrite (proj1 (update_task_answers self task_id title description completed s _ H)).
    unfold first_if_list. now rewrite Hv.
  - now rewrite (proj1 (update_task_answers self task_id title description completed s _ H)).
  - now rewrite (proj2 (update_task_answers self task_id title description completed s _ H)).
Qed.

(** A PATCH that touched no row, and a POST answered with the new row. *)
Lemma write_answer_shapes_witness :
  snd (update_task demo_client 9 "milk" "two litres" true
         (start (answering 200 (VList [])) tt))
  = Raise (Exn IndexError "list index out of range")
  /\ page (fst (update_task demo_client 9 "milk" "two litres" true
                  (start (answering 200 (VList [])) tt)))
     = [Error "Failed to update task 9: list index out of range"]
  /\ snd (create_task demo_client "B" "second"
            (start (answering 201 (VList sample_tasks)) tt))
     = Ret (VDict [("id", VInt 2); ("title", VStr "B"); ("completed", VBool true)]).
Proof.
  destruct (write_answer_shapes demo_client (start (answering 200 (VList [])) tt)
              9 "milk" "two litres" true) as (_ & _ & _ & _ & _ & Hempty).
  destruct (write_answer_shapes demo_client
              (start (answering 201 (VList sample_tasks)) tt)
              9 "B" "second" true) as (Hfirst & _).
  assert (answers (start (answering 200 (VList [])) tt)
            (request_of demo_client PATCH (id_endpoint 9)
               (Some (task_payload "milk" "two litres" true)) false)
            (VList [])) as Ha by (eexists; split; reflexivity).
  split; [exact (proj1 (Hempty Ha))|]. split; [exact (proj2 (Hempty Ha))|].
  refine (Hfirst _ _ _). eexists. split; reflexivity.
Defined.

(** X5.  [test_connection] returns [True] exactly when its probe, a GET
    of one row, goes through, and [False] exactly when it fails; the body
    of the answer is not looked at. *)
Theorem test_connection_spec {P : platform} (self : SupabaseClient) (s : state P) :
  let rq := request_of self GET "tasks?limit=1" None false in
  (forall r, call_response (snd (send P rq (world s))) = Some r ->
             test_connection self s
             = (State (fst (send P rq (world s))) (page s) (sent s ++ [rq]), Ret true))
  /\ (forall e, fails_with s rq e ->
             test_connection self s
             = (State (fst (send P rq (world s)))
                  (page s ++ [Error ("Database request failed: " +:+ exn_str e);
                              Error ("Database connection test failed: "
                                     +:+ exn_str e)])
                  (sent s ++ [rq]),
                Ret false)).
Proof.
  intros rq. split.
  - intros r H. unfold test_connection.
    now rewrite (call_returns self GET "tasks?limit=1" None _ _ s r H).
  - intros e H. unfold test_connection.
    rewrite (call_fails self GET "tasks?limit=1" None _ _ s e H). cbn.
    now rewrite <- app_assoc.
Qed.

(** A remote that answers a page that is not JSON still counts as
    connected; a remote that answers 503 does not. *)
Lemma test_connection_spec_witness :
  snd (test_connection demo_client
         (start (canned (Resp (Response 200 "OK" "https://db.example" None))) tt))
  = Ret true
  /\ snd (test_connection demo_client
            (start (canned (Resp (Response 503 "Service Unavailable"
                                    "https://db.example" None))) tt))
     = Ret false.
Proof.
  split.
  - destruct (test_connection_spec demo_client
                (start (canned (Resp (Response 200 "OK" "https://db.example" None))) tt))
      as [Hok _].
    now rewrite (Hok _ eq_refl).
  - destruct (test_connection_spec demo_client
                (start (canned (Resp (Response 503 "Service Unavailable"
                                        "https://db.example" None))) tt))
      as [_ Hfail].
    now rewrite (Hfail _ eq_refl).
Defined.

(** ** More on the routes *)

Section RouteRuns.
Context {P : platform}.
Variable db : SupabaseClient.
Variable ui : M P unit.

Lemma script_tasks query_params rest (s : state P) :
  query_params !! "api" = Some ("tasks", rest) ->
  script db ui query_params s = route_tasks db (with_cors s).
Proof. intros H. unfold script. now rewrite H. Qed.

Lemma script_task query_params rest (s : state P) :
  query_params !! "api" = Some ("task", rest) ->
  script db ui query_params s = route_task db query_params (with_cors s).
Proof. intros H. unfold script. now rewrite H. Qed.

Lemma script_create_task query_params rest (s : state P) :
  query_params !! "api" = Some ("create_task", rest) ->
  script db ui query_params s = route_create_task db query_params (with_cors s).
Proof. intros H. unfold script. now rewrite H. Qed.

Lemma script_update_task query_params rest (s : state P) :
  query_params !! "api" = Some ("update_task", rest) ->
  script db ui query_params s = route_update_task db query_params (with_cors s).
Proof. intros H. unfold script. now rewrite H. Qed.

Lemma script_delete_task query_params rest (s : state P) :
  query_params !! "api" = Some ("delete_task", rest) ->
  script db ui query_params s = route_delete_task db query_params (with_cors s).
Proof. intros H. unfold script. now rewrite H. Qed.

Lemma script_health query_params rest (s : state P) :
  query_params !! "api" = Some ("health", rest) ->
  script db ui query_params s = route_health (with_cors s).
Proof. intros H. unfold script. now rewrite H. Qed.

Lemma json_responses_with_cors (s : state P) :
  json_responses (page (with_cors s)) = json_responses (page s).
Proof. cbn. rewrite json_responses_app. cbn. apply app_nil_r. Qed.

End RouteRuns.

(** X6.  Each of the six operations of the dispatch block answers every
    request, whatever its parameters and whatever the remote does, with
    exactly one envelope whose status is "success" or "error", and stops
    the script there. *)
Theorem six_operations_answer_once {P : platform} (db : SupabaseClient)
    (ui : M P unit) (query_params : gmap string (string * list string))
    (api_endpoint : string) (rest : list string) (s : state P) :
  query_params !! "api" = Some (api_endpoint, rest) ->
  In api_endpoint
     ["tasks"; "task"; "create_task"; "update_task"; "delete_task"; "health"] ->
  snd (script db ui query_params s) = Halt
  /\ exists v,
       is_envelope v = true
       /\ json_responses (page (fst (script db ui query_params s)))
          = (json_responses (page s) ++ [v])%list.
Proof.
  intros Hapi Hin.
  apply (known_operation_responds db ui query_params api_endpoint rest Hapi).
  unfold known_operation. apply existsb_exists. exists api_endpoint.
  split; [exact Hin|apply String.eqb_refl].
Qed.

(** [?api=update_task] with nothing else, against a remote that is
    down: one error envelope. *)
Lemma six_operations_answer_once_witness :
  snd (script demo_client (ret tt) {[ "api" := ("update_task", []) ]}
         (start offline tt)) = Halt
  /\ exists v,
       is_envelope v = true
       /\ json_responses
            (page (fst (script demo_client (ret tt)
                          {[ "api" := ("update_task", []) ]} (start offline tt))))
          = [v].
Proof.
  apply (six_operations_answer_once demo_client (ret tt)
           {[ "api" := ("update_task", []) ]} "update_task" [] (start offline tt)).
  - reflexivity.
  - cbn. auto.
Defined.



(** X8.  [?api=tasks] answers "success" always: with the rows the remote
    listed when the call goes through, and with an empty list when it
    fails.  A failure of the remote never shows in the envelope. *)
Theorem tasks_route_always_succeeds {P : platform} (db : SupabaseClient)
    (ui : M P unit) (query_params : gmap string (string * list string))
    (rest : list string) (s : state P) :
  query_params !! "api" = Some ("tasks", rest) ->
  let rq := request_of db GET list_endpoint None false in
  exists data,
    snd (script db ui query_params s) = Halt
    /\ json_responses (page (fst (script db ui query_params s)))
       = (json_responses (page s)
          ++ [VDict [("status", VStr "success"); ("data", data)]])%list
    /\ (forall v, answers s rq v -> data = v)
    /\ (forall e, fails_with s rq e -> data = VList []).
Proof.
  intros Hapi rq. rewrite (script_tasks db ui query_params rest s Hapi).
  destruct (get_all_tasks_total db (with_cors s)) as (s' & data & Hrun).
  pose proof (proj1 (quiet_get_all_tasks db (with_cors s))) as Hquiet.
  rewrite Hrun, json_responses_with_cors in Hquiet. cbn [fst] in Hquiet.
  exists data. unfold route_tasks, try_except, bind. rewrite Hrun. cbn.
  split; [reflexivity|]. split; [|split].
  - rewrite json_responses_app, Hquiet. reflexivity.
  - intros v Hv.
    pose proof (get_all_tasks_answers db (with_cors s) v Hv) as Ha. congruence.
  - intros e He.
    pose proof (get_all_tasks_fails db (with_cors s) e He) as Hf. congruence.
Qed.

(** [?api=tasks] against a remote that is down. *)
Lemma tasks_route_always_succeeds_witness :
  json_responses
    (page (fst (script demo_client (ret tt) {[ "api" := ("tasks", []) ]}
                  (start offline tt))))
  = [VDict [("status", VStr "success"); ("data", VList [])]].
Proof.
  destruct (tasks_route_always_succeeds demo_client (ret tt)
              {[ "api" := ("tasks", []) ]} [] (start offline tt))
    as (data & _ & Hjson & _ & Hfail).
  - reflexivity.
  - rewrite (Hfail (Exn RequestException "Connection refused") eq_refl) in Hjson.
    exact Hjson.
Defined.

(** X9.  [?api=health] answers "success" with the time of the clock and
    makes no HTTP call: it says nothing about the remote. *)
Theorem health_route_makes_no_call {P : platform} (db : SupabaseClient)
    (ui : M P unit) (query_params : gmap string (string * list string))
    (rest : list string) (s : state P) :
  query_params !! "api" = Some ("health", rest) ->
  script db ui query_params s
  = (State (world s)
       (page s ++ [Markdown cors_script true;
                   Json (VDict [("status", VStr "success");
                                ("message", VStr "API is running");
                                ("timestamp", VStr (now_iso P (world s)))])])
       (sent s),
     Halt).
Proof.
  intros Hapi. rewrite (script_health db ui query_params rest s Hapi).
  cbn. now rewrite <- app_assoc.
Qed.

(** [?api=health] against a remote that is down. *)
Lemma health_route_makes_no_call_witness :
  script demo_client (ret tt) {[ "api" := ("health", []) ]} (start offline tt)
  = (State (P := offline) tt
       [Markdown cors_script true;
        Json (VDict [("status", VStr "success");
                     ("message", VStr "API is running");
                     ("timestamp", VStr "2024-01-01T00:00:00")])]
       [],
     Halt).
Proof.
  apply (health_route_makes_no_call demo_client (ret tt)
           {[ "api" := ("health", []) ]} [] (start offline tt)).
  reflexivity.
Defined.

Section RouteParts.
Context {P : platform}.
Variable db : SupabaseClient.

Lemma get_task_returns task_id (s : state P) :
  exists s' v, get_task db task_id s = (s', Ret v).
Proof.
  destruct (call_cases s (request_of db GET (id_endpoint task_id) None false))
    as [[e H]|[r H]]; unfold get_task.
  - rewrite (call_fails db GET (id_endpoint task_id) None _ _ s e H). cbn. eauto.
  - rewrite (call_returns db GET (id_endpoint task_id) None _ _ s r H). run.
    destruct (body r) as [v|]; cbn; [|eauto].
    destruct (Py.truthy v); cbn; [|eauto].
    destruct (Py.item0 v); cbn; eauto.
Qed.

Lemma delete_task_goes_through task_id (s : state P) r :
  call_response (snd (send P (request_of db DELETE (id_endpoint task_id) None false)
                        (world s))) = Some r ->
  snd (delete_task db task_id s) = Ret true.
Proof.
  intros H. unfold delete_task.
  now rewrite (call_returns db DELETE (id_endpoint task_id) None _ _ s r H).
Qed.

Lemma delete_task_fails task_id (s : state P) e :
  fails_with s (request_of db DELETE (id_endpoint task_id) None false) e ->
  snd (delete_task db task_id s) = Ret false.
Proof.
  intros H. unfold delete_task.
  now rewrite (call_fails db DELETE (id_endpoint task_id) None _ _ s e H).
Qed.

End RouteParts.

(** X10.  [?api=task&id=<n>] with an [id] that [int] accepts makes the one
    GET for that id and answers "success" always: with the first row of
    the answer, and with [null] both when no row matches and when the call
    fails. *)
Theorem task_route_hides_failure {P : platform} (db : SupabaseClient)
    (ui : M P unit) (query_params : gmap string (string * list string))
    (rest : list string) (id : string) (n : Z) (s : state P) :
  query_params !! "api" = Some ("task", rest) ->
  first_value query_params "id" = Some id ->
  given (Some id) = true ->
  int_of_str P id = inr n ->
  let rq := request_of db GET (id_endpoint n) None false in
  exists data,
    snd (script db ui query_params s) = Halt
    /\ sent (fst (script db ui query_params s)) = (sent s ++ [rq])%list
    /\ json_responses (page (fst (script db ui query_params s)))
       = (json_responses (page s)
          ++ [VDict [("status", VStr "success"); ("data", data)]])%list
    /\ (forall task others, answers s rq (VList (task :: others)) -> data = task)
    /\ (answers s rq (VList []) -> data = VNone)
    /\ (forall e, fails_with s rq e -> data = VNone).
Proof.
  intros Hapi Hid Hgiven Hint rq.
  rewrite (script_task db ui query_params rest s Hapi).
  destruct (get_task_returns db n (with_cors s)) as (s' & data & Hrun).
  pose proof (proj1 (quiet_get_task db n (with_cors s))) as Hquiet.
  pose proof (get_task_sent db n (with_cors s)) as Hsent.
  rewrite Hrun in Hquiet, Hsent. cbn [fst] in Hquiet, Hsent.
  rewrite json_responses_with_cors in Hquiet.
  exists data. unfold route_task, try_except, bind. cbn.
  rewrite Hid, Hgiven. cbn.
  change (of_option_str (Some id)) with id. rewrite Hint. cbn.
  rewrite Hrun. cbn.
  split; [reflexivity|]. split; [exact Hsent|]. split; [|split; [|split]].
  - rewrite json_responses_app, Hquiet. reflexivity.
  - intros task others Ha.
    pose proof (get_task_found db (with_cors s) n task others Ha). congruence.
  - intros Ha. pose proof (get_task_absent db (with_cors s) n Ha). congruence.
  - intros e He. pose proof (get_task_fails db (with_cors s) n e He). congruence.
Qed.

(** [?api=task&id=7] against a remote that is down. *)
Lemma task_route_hides_failure_witness :
  json_responses
    (page (fst (script demo_client (ret tt)
                  {[ "api" := ("task", []); "id" := ("7", []) ]}
                  (start offline tt))))
  = [VDict [("status", VStr "success"); ("data", VNone)]].
Proof.
  destruct (task_route_hides_failure demo_client (ret tt)
              {[ "api" := ("task", []); "id" := ("7", []) ]} [] "7" 7
              (start offline tt))
    as (data & _ & _ & Hjson & _ & _ & Hfail).
  - reflexivity.
  - reflexivity.
  - reflexivity.
  - reflexivity.
  - rewrite (Hfail (Exn RequestException "Connection refused") eq_refl) in Hjson.
    exact Hjson.
Defined.

(** X11.  [?api=delete_task&id=<n>] with an [id] that [int] accepts makes
    the one DELETE for that id.  It answers "success" whenever the call
    goes through, whatever rows it removed, and the error envelope
    "Failed to delete task" when the call fails. *)
Theorem delete_route_spec {P : platform} (db : SupabaseClient)
    (ui : M P unit) (query_params : gmap string (string * list string))
    (rest : list string) (id : string) (n : Z) (s : state P) :
  query_params !! "api" = Some ("delete_task", rest) ->
  first_value query_params "id" = Some id ->
  given (Some id) = true ->
  int_of_str P id = inr n ->
  let rq := request_of db DELETE (id_endpoint n) None false in
  snd (script db ui query_params s) = Halt
  /\ sent (fst (script db ui query_params s)) = (sent s ++ [rq])%list
  /\ (forall r,
        call_response (snd (send P rq (world s))) = Some r ->
        json_responses (page (fst (script db ui query_params s)))
        = (json_responses (page s)
           ++ [VDict [("status", VStr "success");
                      ("message", VStr "Task deleted successfully")]])%list)
  /\ (forall e,
        fails_with s rq e ->
        json_responses (page (fst (script db ui query_params s)))
        = (json_responses (page s)
           ++ [VDict [("status", VStr "error");
                      ("message", VStr "Failed to delete task")]])%list).
Proof.
  intros Hapi Hid Hgiven Hint rq.
  rewrite (script_delete_task db ui query_params rest s Hapi).
  pose proof (proj1 (quiet_delete_task db n (with_cors s))) as Hquiet.
  pose proof (proj2 (quiet_delete_task db n (with_cors s))) as Hends.
  pose proof (delete_task_sent db n (with_cors s)) as Hsent.
  pose proof (delete_task_goes_through db n (with_cors s)) as Hok.
  pose proof (delete_task_fails db n (with_cors s)) as Hfail.
  rewrite json_responses_with_cors in Hquiet.
  unfold route_delete_task, try_except, bind. cbn.
  rewrite Hid, Hgiven. cbn.
  change (of_option_str (Some id)) with id. rewrite Hint. cbn.
  destruct (delete_task db n (with_cors s)) as [s' [b|e|]]; cbn in *.
  - split; [reflexivity|]. split; [exact Hsent|]. split.
    + intros r Hr. specialize (Hok r Hr). injection Hok as ->.
      rewrite json_responses_app, Hquiet. reflexivity.
    + intros e He. specialize (Hfail e He). injection Hfail as ->.
      rewrite json_responses_app, Hquiet. reflexivity.
  - destruct (call_cases s rq) as [[e' H]|[r H]].
    + specialize (Hfail e' H). discriminate.
    + specialize (Hok r H). discriminate.
  - destruct Hends. reflexivity.
Qed.

(** [?api=delete_task&id=9] against a remote that answers an empty list:
    no row had that id, and the envelope says "success". *)
Lemma delete_route_spec_witness :
  json_responses
    (page (fst (script demo_client (ret tt)
                  {[ "api" := ("delete_task", []); "id" := ("9", []) ]}
                  (start (answering 200 (VList [])) tt))))
  = [VDict [("status", VStr "success");
            ("message", VStr "Task deleted successfully")]].
Proof.
  destruct (delete_route_spec demo_client (ret tt)
              {[ "api" := ("delete_task", []); "id" := ("9", []) ]} [] "9" 9
              (start (answering 200 (VList [])) tt))
    as (_ & _ & Hok & _).
  - reflexivity.
  - reflexivity.
  - reflexivity.
  - reflexivity.
  - exact (Hok _ eq_refl).
Defined.

(** X12.  [?api=create_task&title=<t>] with a title that is not empty
    makes the one POST, with [description] the parameter or "" and
    [completed] false.  The envelope is "success" with the created row when
    the remote answers a list of rows, and an error envelope with the text
    of the failure when the call fails. *)
Theorem create_route_spec {P : platform} (db : SupabaseClient)
    (ui : M P unit) (query_params : gmap string (string * list string))
    (rest : list string) (title : string) (s : state P) :
  query_params !! "api" = Some ("create_task", rest) ->
  first_value query_params "title" = Some title ->
  given (Some title) = true ->
  let description := default EmptyString (first_value query_params "description") in
  let rq := request_of db POST "tasks"
              (Some (task_payload title description false)) false in
  snd (script db ui query_params s) = Halt
  /\ sent (fst (script db ui query_params s)) = (sent s ++ [rq])%list
  /\ (forall task others,
        answers s rq (VList (task :: others)) ->
        json_responses (page (fst (script db ui query_params s)))
        = (json_responses (page s)
           ++ [VDict [("status", VStr "success"); ("data", task);
                      ("message", VStr "Task created successfully")]])%list)
  /\ (forall e,
        fails_with s rq e ->
        json_responses (page (fst (script db ui query_params s)))
        = (json_responses (page s) ++ [error_envelope (exn_str e)])%list).
Proof.
  intros Hapi Htitle Hgiven description rq.
  rewrite (script_create_task db ui query_params rest s Hapi).
  pose proof (proj1 (quiet_create_task db title description (with_cors s))) as Hquiet.
  pose proof (proj2 (quiet_create_task db title description (with_cors s))) as Hends.
  pose proof (create_task_sent db title description (with_cors s)) as Hsent.
  pose proof (fun v => create_task_answers db title description (with_cors s) v) as Hans.
  pose proof (create_task_fails db (with_cors s) title description) as Hfail.
  rewrite json_responses_with_cors in Hquiet.
  unfold route_create_task, try_except, bind. cbn.
  rewrite Htitle, Hgiven. cbn.
  change (of_option_str (Some title)) with title.
  fold description.
  destruct (create_task db title description (with_cors s)) as [s' [task|e|]];
    cbn in *.
  - split; [reflexivity|]. split; [exact Hsent|]. split.
    + intros task' others Ha. destruct (Hans _ Ha) as [Hret _]. cbn in Hret.
      injection Hret as ->. rewrite json_responses_app, Hquiet. reflexivity.
    + intros e He. specialize (Hfail e He). discriminate.
  - split; [reflexivity|]. split; [exact Hsent|]. split.
    + intros task' others Ha. destruct (Hans _ Ha) as [Hret _]. discriminate.
    + intros e' He. specialize (Hfail e' He). injection Hfail as ->.
      rewrite json_responses_app, Hquiet. reflexivity.
  - destruct Hends. reflexivity.
Qed.

(** [?api=create_task&title=milk] against a remote that is down. *)
Lemma create_route_spec_witness :
  json_responses
    (page (fst (script demo_client (ret tt)
                  {[ "api" := ("create_task", []); "title" := ("milk", []) ]}
                  (start offline tt))))
  = [error_envelope "Connection refused"]
  /\ sent (fst (script demo_client (ret tt)
                  {[ "api" := ("create_task", []); "title" := ("milk", []) ]}
                  (start offline tt)))
     = [request_of demo_client POST "tasks"
          (Some (task_payload "milk" EmptyString false)) false].
Proof.
  destruct (create_route_spec demo_client (ret tt)
              {[ "api" := ("create_task", []); "title" := ("milk", []) ]} [] "milk"
              (start offline tt))
    as (_ & Hsent & _ & Hfail).
  - reflexivity.
  - reflexivity.
  - reflexivity.
  - split.
    + exact (Hfail (Exn RequestException "Connection refused") eq_refl).
    + exact Hsent.
Defined.

(** X13.  [?api=update_task] replaces all three fields: when the request
    gives no [description] and no [completed], the PATCH carries
    [description] "" and [completed] false, so both are reset.  When the
    PATCH touches no row (the answer is an empty list) the envelope is the
    error "list index out of range". *)
Theorem update_route_spec {P : platform} (db : SupabaseClient)
    (ui : M P unit) (query_params : gmap string (string * list string))
    (rest : list string) (id title : string) (n : Z) (s : state P) :
  query_params !! "api" = Some ("update_task", rest) ->
  first_value query_params "id" = Some id -> given (Some id) = true ->
  int_of_str P id = inr n ->
  first_value query_params "title" = Some title -> given (Some title) = true ->
  let description := default EmptyString (first_value query_params "description") in
  let rq := request_of db PATCH (id_endpoint n)
              (Some (task_payload title description
                       (completed_param query_params))) false in
  (first_value query_params "description" = None ->
   first_value query_params "completed" = None ->
   sent (fst (script db ui query_params s))
   = (sent s ++ [request_of db PATCH (id_endpoint n)
                   (Some (task_payload title EmptyString false)) false])%list)
  /\ (answers s rq (VList []) ->
      snd (script db ui query_params s) = Halt
      /\ json_responses (page (fst (script db ui query_params s)))
         = (json_responses (page s)
            ++ [error_envelope "list index out of range"])%list).
Proof.
  intros Hapi Hid Hgid Hint Htitle Hgtitle description rq. split.
  - intros Hdescription Hcompleted.
    rewrite (route_update_task_sends db ui query_params rest id n title s
               Hapi Hid Hgid Hint Htitle Hgtitle).
    unfold completed_param. rewrite Hdescription, Hcompleted. reflexivity.
  - intros Ha.
    rewrite (script_update_task db ui query_params rest s Hapi).
    pose proof (proj1 (quiet_update_task db n title description
                         (completed_param query_params) (with_cors s))) as Hquiet.
    destruct (update_task_answers db n title description
                (completed_param query_params) (with_cors s) _ Ha) as [Hret _].
    cbn in Hret. rewrite json_responses_with_cors in Hquiet.
    unfold route_update_task, try_except, bind. cbn.
    rewrite Hid, Htitle, Hgid, Hgtitle. cbn.
    change (of_option_str (Some id)) with id. rewrite Hint. cbn.
    change (of_option_str (Some title)) with title. fold description.
    destruct (update_task db n title description (completed_param query_params)
                (with_cors s)) as [s' o]; cbn in *. subst o. cbn.
    split; [reflexivity|]. rewrite json_responses_app, Hquiet. reflexivity.
Qed.

(** [?api=update_task&id=9&title=milk] against a remote whose PATCH
    touches no row. *)
Lemma update_route_spec_witness :
  let query_params : gmap string (string * list string) :=
    {[ "api" := ("update_task", []); "id" := ("9", []); "title" := ("milk", []) ]} in
  let s := start (answering 200 (VList [])) tt in
  sent (fst (script demo_client (ret tt) query_params s))
  = [request_of demo_client PATCH "tasks?id=eq.9"
       (Some (task_payload "milk" EmptyString false)) false]
  /\ json_responses (page (fst (script demo_client (ret tt) query_params s)))
     = [error_envelope "list index out of range"].
Proof.
  intros query_params s.
  destruct (update_route_spec demo_client (ret tt) query_params [] "9" "milk" 9 s)
    as (Hreset & Hempty).
  - reflexivity.
  - reflexivity.
  - reflexivity.
  - reflexivity.
  - reflexivity.
  - reflexivity.
  - split.
    + exact (Hreset eq_refl eq_refl).
    + refine (proj2 (Hempty _)). eexists. split; reflexivity.
Defined.

(** ** Building the client *)



(** X15.  A client built from secrets without [service_key] has no
    elevated tier: asking [_make_request] for the admin headers sends the
    very same call as not asking. *)
Theorem admin_falls_back_to_key {P : platform}
    (missing_key_message : string -> string)
    (secrets : gmap string (gmap string string)) (section : gmap string string)
    (s s' : state P) (self : SupabaseClient) :
  secrets !! "supabase" = Some section ->
  section !! "service_key" = None ->
  __init__ missing_key_message secrets s = (s', Ret self) ->
  admin_headers self = headers self
  /\ forall method endpoint data (s0 : state P),
       _make_request self method endpoint data true s0
       = _make_request self method endpoint data false s0.
Proof.
  intros Hsection Hservice Hinit.
  assert (admin_headers self = headers self) as Hheaders.
  { revert Hinit. unfold __init__, try_except, bind, secrets_item.
    rewrite Hsection. cbn.
    destruct (section !! "url"); cbn; [|discriminate].
    destruct (section !! "key"); cbn; [|discriminate].
    rewrite Hservice. intros [= _ <-]. reflexivity. }
  split; [exact Hheaders|].
  intros method endpoint data s0. unfold _make_request. now rewrite Hheaders.
Qed.

Lemma admin_falls_back_to_key_witness :
  admin_headers {| url := "https://db.example"; key := "anon"; service_key := "anon" |}
  = headers {| url := "https://db.example"; key := "anon"; service_key := "anon" |}
  /\ forall method endpoint data (s0 : state offline),
       _make_request
         {| url := "https://db.example"; key := "anon"; service_key := "anon" |}
         method endpoint data true s0
       = _make_request
           {| url := "https://db.example"; key := "anon"; service_key := "anon" |}
           method endpoint data false s0.
Proof.
  apply (admin_falls_back_to_key (P := offline) (fun k => k)
           {[ "supabase" := {[ "url" := "https://db.example"; "key" := "anon" ]} ]}
           {[ "url" := "https://db.example"; "key" := "anon" ]}
           (start offline tt) (start offline tt)).
  - reflexivity.
  - reflexivity.
  - reflexivity.
Defined.

(** ** config.py *)

(** X16.  [Config.validate_config()] returns [True] exactly when
    [SUPABASE_URL] and [SUPABASE_KEY] are both set to a text that is not
    empty; the service key and [DEBUG] play no part.  Otherwise it raises
    a [ValueError] that names the missing ones, the URL first. *)
Theorem validate_config_spec (environ : gmap string string) :
  let cls := Config.load environ in
  let set name := given (environ !! name) in
  (Config.validate_config cls = inr true
   <-> set "SUPABASE_URL" = true /\ set "SUPABASE_KEY" = true)
  /\ (set "SUPABASE_URL" = false -> set "SUPABASE_KEY" = true ->
      Config.validate_config cls
      = inl (Exn ValueError "Missing required configuration: SUPABASE_URL"))
  /\ (set "SUPABASE_URL" = true -> set "SUPABASE_KEY" = false ->
      Config.validate_config cls
      = inl (Exn ValueError "Missing required configuration: SUPABASE_KEY"))
  /\ (set "SUPABASE_URL" = false -> set "SUPABASE_KEY" = false ->
      Config.validate_config cls
      = inl (Exn ValueError
               "Missing required configuration: SUPABASE_URL, SUPABASE_KEY")).
Proof.
  intros cls set. unfold set, cls, Config.validate_config. cbn.
  destruct (given (environ !! "SUPABASE_URL"));
    destruct (given (environ !! "SUPABASE_KEY")); cbn.
  all: repeat split; try discriminate; try reflexivity.
  all: try (intros [? ?]; discriminate).
Qed.

(** An environment with the URL only, the key set to the empty text. *)
Lemma validate_config_spec_witness :
  Config.validate_config
    (Config.load {[ "SUPABASE_URL" := "https://db.example";
                    "SUPABASE_KEY" := EmptyString ]})
  = inl (Exn ValueError "Missing required configuration: SUPABASE_KEY").
Proof.
  destruct (validate_config_spec {[ "SUPABASE_URL" := "https://db.example";
                                    "SUPABASE_KEY" := EmptyString ]})
    as (_ & _ & Hkey & _).
  apply Hkey; reflexivity.
Defined.

(** X17.  [Config.DEBUG] is true exactly when the variable [DEBUG] is set
    to one of the spellings of "true" in upper and lower case; unset, or
    set to anything else ("1", "yes"), it is false. *)
Theorem debug_only_when_true (environ : gmap string string) :
  (Config.DEBUG (Config.load environ) = true
   <-> exists c1 c2 c3 c4,
         environ !! "DEBUG"
         = Some (String c1 (String c2 (String c3 (String c4 EmptyString))))
         /\ (c1 = "t" \/ c1 = "T")%char /\ (c2 = "r" \/ c2 = "R")%char
         /\ (c3 = "u" \/ c3 = "U")%char /\ (c4 = "e" \/ c4 = "E")%char)
  /\ (environ !! "DEBUG" = None -> Config.DEBUG (Config.load environ) = false).
Proof.
  cbn [Config.load Config.DEBUG]. split.
  - rewrite String.eqb_eq.
    destruct (environ !! "DEBUG") as [v|].
    + change (default "False" (Some v)) with v. rewrite lower_is_true. split.
      * intros (c1 & c2 & c3 & c4 & -> & H). exists c1, c2, c3, c4. auto.
      * intros (c1 & c2 & c3 & c4 & [= ->] & H). exists c1, c2, c3, c4. auto.
    + change (default "False" None) with "False".
      split; [discriminate|]. intros (c1 & c2 & c3 & c4 & [=] & _).
  - intros ->. reflexivity.
Qed.

Lemma debug_only_when_true_witness :
  Config.DEBUG (Config.load {[ "DEBUG" := "True" ]}) = true
  /\ Config.DEBUG (Config.load ∅) = false.
Proof.
  split.
  - apply (proj1 (debug_only_when_true {[ "DEBUG" := "True" ]})).
    exists "T"%char, "r"%char, "u"%char, "e"%char. split; [reflexivity|]. auto.
  - apply (proj2 (debug_only_when_true ∅)). reflexivity.
Defined.

(** ** The empty search *)

Lemma mentions_empty r : mentions EmptyString r = true.
Proof. unfold mentions. destruct (Py.lower (Remote.title r)); reflexivity. Qed.

Lemma filter_all {A} (f : A -> bool) (l : list A) :
  (forall x, f x = true) -> List.filter f l = l.
Proof.
  intros Hf. induction l as [|x l IH]; cbn; [reflexivity|].
  now rewrite Hf, IH.
Qed.

(** X18.  [search_tasks("")] builds the patterns [**] and, against the
    table service, returns every stored task, newest first: the empty
    query matches all. *)
Theorem search_empty_query_matches_all (self : SupabaseClient) (d : Remote.db)
    (shown : list element) (calls : list http_request) :
  exists found,
    snd (search_tasks self EmptyString
           (State (P := Remote.platform (url self)) d shown calls))
    = Ret (VList (map Remote.to_json found))
    /\ Permutation found (Remote.rows d)
    /\ StronglySorted newer_or_same found.
Proof.
  exists (Remote.newest_first (Remote.rows d)).
  split; [|split].
  - rewrite (search_tasks_answers self _ EmptyString
               (VList (map Remote.to_json (Remote.newest_first (Remote.rows d))))).
    + reflexivity.
    + unfold answers. cbn [world send Remote.platform].
      rewrite (serve_search self d EmptyString eq_refl). cbn [snd].
      rewrite (filter_all _ _ mentions_empty).
      eexists. split; reflexivity.
  - apply newest_first_permutation.
  - apply newest_first_sorted.
Qed.
